(** * The XWayland bridge of Mir: XWaylandServer and XWaylandConnector

    A shallow embedding of
      src/server/frontend_xwayland/xwayland_server.{h,cpp}
      src/server/frontend_xwayland/xwayland_connector.{h,cpp}
    Stateful code is written in a small state-and-exception monad over a
    [World]; what the operating system and the external collaborators
    (XWaylandSpawner, XWaylandWM, ThreadedDispatcher, WaylandConnector) answer
    is supplied as oracle records. *)

From stdpp Require Import gmap strings list pretty.

Local Open Scope Z_scope.

(** ** Data *)

Definition Fd := Z.
Definition pid_t := Z.
Definition wl_client := Z.

(** [to_string] is std::to_string on an int: decimal digits, a leading minus
    sign for negatives. *)
Definition to_string (n : Z) : string := pretty n.

(** XWaylandSpawner (xwayland_spawner.h, external): the display it listens on
    and its listening sockets. *)
Record XWaylandSpawner := mkSpawner {
  x11_display : string;
  socket_fds : list Fd
}.

(** XWaylandServer::XWaylandProcess *)
Record XWaylandProcess := mkProcess {
  pid : pid_t;
  wayland_server_fd : Fd;
  x11_wm_client_fd : Fd
}.

(** XWaylandServer, with the mutable members [running] and [exit_code] that
    is_running() updates. *)
Record XWaylandServer := mkServer {
  xwayland_process : XWaylandProcess;
  wayland_client : wl_client;
  running : bool;
  exit_code : option Z
}.

Definition client (s : XWaylandServer) : wl_client := wayland_client s.
Definition wm_fd (s : XWaylandServer) : Fd := x11_wm_client_fd (xwayland_process s).

(** XWaylandWM (external): built from the client and the wm descriptor. *)
Record XWaylandWM := mkWM {
  wm_client : wl_client;
  wm_socket : Fd
}.

(** mir::dispatch::ThreadedDispatcher over a ReadableFd (external). *)
Record ThreadedDispatcher := mkThread {
  thread_name : string;
  watched_fd : Fd
}.

(** The members of XWaylandConnector that the mutex protects, and
    [xwayland_path]. *)
Record Connector := mkConnector {
  xwayland_path : string;
  spawner : option XWaylandSpawner;
  server : option XWaylandServer;
  wm : option XWaylandWM;
  wm_event_thread : option ThreadedDispatcher;
  restart_in_progress : bool
}.

(** Whether a unique_ptr member holds an object. *)
Definition present {A} (p : option A) : bool :=
  match p with
  | Some _ => true
  | None => false
  end.

Inductive exception :=
| system_error (what : string)
| runtime_error (what : string)
| fatal_error (what : string)
| foreign_error (what : string).

Inductive Component := CSpawner | CServer | CWm | CWmEventThread.

Inductive Mutex := ConnectorMutex | ServerMutex | XserverReadyMutex | CreateClientMutex.

Inductive Severity := SevInfo | SevError.

Inductive SigHandler := SIG_DFL | SIG_IGN | XserverReadyHandler | HostHandler (id : nat).

(** What the forked child hands to execvp. *)
Record ExecImage := mkImage {
  exec_file : string;
  exec_argv : list string;
  exec_environ : gmap string string;
  exec_sigusr1 : SigHandler;
  exec_inheritable : list Fd
}.

Inductive ChildFate :=
| Execed (img : ExecImage)
| Aborted (img : ExecImage) (stderr : string).

Record ChildProcess := mkChild {
  child_pid : pid_t;
  child_fate : ChildFate
}.

(** The ghost trace of what an operation did, oldest event first. *)
Inductive Event :=
| EvLock (m : Mutex)
| EvUnlock (m : Mutex)
| EvMove (c : Component)
| EvDestroy (c : Component)
| EvCreate (c : Component)
| EvFork (p : pid_t)
| EvDefer
| EvHandleEvents
| EvWaitpid (p : pid_t)
| EvLog (sev : Severity) (err : option exception) (msg : string).

Record World := mkWorld {
  conn : Connector;
  alive : bool;
  main_loop : nat;
  sigusr1 : SigHandler;
  clock : Z;
  children : list ChildProcess;
  trace : list Event
}.

(** ** The monad: state over [World], exceptions as [Throw] *)

Inductive Result (A : Type) :=
| Ok (a : A)
| Throw (e : exception).
Arguments Ok {A} a.
Arguments Throw {A} e.

Definition M (A : Type) : Type := World → Result A * World.

Definition ret {A} (a : A) : M A := λ w, (Ok a, w).

Definition bind {A B} (m : M A) (k : A → M B) : M B :=
  λ w, match m w with
       | (Ok a, w') => k a w'
       | (Throw e, w') => (Throw e, w')
       end.

Definition throw {A} (e : exception) : M A := λ w, (Throw e, w).

Definition try_catch {A} (body : M A) (handler : exception → M A) : M A :=
  λ w, match body w with
       | (Ok a, w') => (Ok a, w')
       | (Throw e, w') => handler e w'
       end.

Declare Scope m_scope.
Delimit Scope m_scope with M.
Notation "'let*' x := m 'in' k" := (bind m (λ x, k))
  (at level 10, x name, m at level 100, k at level 200) : m_scope.
Notation "m >> k" := (bind m (λ _, k))
  (at level 100, k at level 200, right associativity) : m_scope.
Local Open Scope m_scope.

Definition gets {A} (f : World → A) : M A := λ w, (Ok (f w), w).
Definition modify (f : World → World) : M unit := λ w, (Ok tt, f w).

Definition emit_ev (e : Event) (w : World) : World :=
  mkWorld (conn w) (alive w) (main_loop w) (sigusr1 w) (clock w) (children w) (trace w ++ [e]).
Definition emit (e : Event) : M unit := modify (emit_ev e).

Definition with_conn (f : Connector → Connector) (w : World) : World :=
  mkWorld (f (conn w)) (alive w) (main_loop w) (sigusr1 w) (clock w) (children w) (trace w).

Definition set_spawner (v : option XWaylandSpawner) (c : Connector) : Connector :=
  mkConnector (xwayland_path c) v (server c) (wm c) (wm_event_thread c) (restart_in_progress c).
Definition set_server (v : option XWaylandServer) (c : Connector) : Connector :=
  mkConnector (xwayland_path c) (spawner c) v (wm c) (wm_event_thread c) (restart_in_progress c).
Definition set_wm (v : option XWaylandWM) (c : Connector) : Connector :=
  mkConnector (xwayland_path c) (spawner c) (server c) v (wm_event_thread c) (restart_in_progress c).
Definition set_wm_event_thread (v : option ThreadedDispatcher) (c : Connector) : Connector :=
  mkConnector (xwayland_path c) (spawner c) (server c) (wm c) v (restart_in_progress c).
Definition set_restart_in_progress (v : bool) (c : Connector) : Connector :=
  mkConnector (xwayland_path c) (spawner c) (server c) (wm c) (wm_event_thread c) v.

Definition log_info (msg : string) : M unit := emit (EvLog SevInfo None msg).
Definition log_error (e : exception) (msg : string) : M unit := emit (EvLog SevError (Some e) msg).

(** std::lock_guard: the mutex is released when the scope is left, by return
    or by exception. *)
Definition lock_guard {A} (m : Mutex) (body : M A) : M A :=
  λ w, let '(r, w') := body (emit_ev (EvLock m) w) in (r, emit_ev (EvUnlock m) w').

(** std::unique_lock on the Connector's mutex: the value says whether the
    lock object owns the mutex. *)
Definition unique_lock := bool.

Definition unique_lock_ctor : M unique_lock := emit (EvLock ConnectorMutex) >> ret true.
Definition unique_lock_lock (l : unique_lock) : M unique_lock := emit (EvLock ConnectorMutex) >> ret true.
Definition unique_lock_unlock (l : unique_lock) : M unique_lock := emit (EvUnlock ConnectorMutex) >> ret false.
Definition unique_lock_dtor (l : unique_lock) : M unit :=
  if l then emit (EvUnlock ConnectorMutex) else ret tt.

(** ** xwayland_server.cpp *)

(** What the operating system and the collaborators answer during one
    construction attempt of the server, the window manager and the thread. *)
Record SpawnEnv := mkSpawnEnv {
  (** socketpair(): the two descriptors, [None] when it fails *)
  wayland_pipe_result : option (Fd * Fd);
  x11_wm_pipe_result : option (Fd * Fd);
  (** fork() as seen by the parent: the child's pid, [None] for -1 *)
  fork_result : option pid_t;
  (** the environment the child inherits *)
  environ : gmap string string;
  (** whether execvp() of the Xwayland binary succeeds *)
  execvp_ok : bool;
  (** ms until the Wayland thread has run wl_client_create, [None]: never *)
  client_created_after : option Z;
  (** what wl_client_create returned, [None]: nullptr *)
  created_client : option wl_client;
  (** ms after the handler is installed until a SIGUSR1 reaches the parent,
      whichever process sent it, [None]: never *)
  sigusr1_after : option Z;
  (** an exception thrown by the XWaylandWM constructor *)
  wm_ctor_error : option exception;
  (** an exception thrown creating the ReadableFd or the ThreadedDispatcher *)
  thread_ctor_error : option exception
}.

Record SocketPair := mkSocketPair {
  sp_client : Fd;
  sp_server : Fd
}.

Definition make_socket_pair (r : option (Fd * Fd)) : M SocketPair :=
  match r with
  | None => throw (system_error "Creating socket pair failed")
  | Some (pipe0, pipe1) => ret (mkSocketPair pipe0 pipe1)
  end.

(** The state of the forked child between fork() and execvp(). *)
Record ChildState := mkChildState {
  c_environ : gmap string string;
  c_sigusr1 : SigHandler;
  c_inheritable : list Fd
}.

(** XWaylandSpawner::set_cloexec (external): sets or clears FD_CLOEXEC. *)
Definition set_cloexec (fd : Fd) (cloexec : bool) (st : ChildState) : ChildState :=
  mkChildState (c_environ st) (c_sigusr1 st)
    (if cloexec then filter (λ x, x ≠ fd) (c_inheritable st) else c_inheritable st ++ [fd]).

Definition setenv (name value : string) (st : ChildState) : ChildState :=
  mkChildState (<[name := value]> (c_environ st)) (c_sigusr1 st) (c_inheritable st).

Definition getenv (name : string) (st : ChildState) : option string := c_environ st !! name.

Definition sigaction_child (h : SigHandler) (st : ChildState) : ChildState :=
  mkChildState (c_environ st) h (c_inheritable st).

Inductive ExecResult :=
| Replaced (img : ExecImage)
| Returned (img : ExecImage) (stderr : string).

(** One turn of the loop over spawner.socket_fds(). *)
Definition push_listen (acc : ChildState * list string) (fd : Fd) : ChildState * list string :=
  (set_cloexec fd false acc.1, acc.2 ++ ["-listen"; to_string fd]).

Definition exec_xwayland (execvp_succeeds : bool) (spawner : XWaylandSpawner)
    (xwayland_path : string) (wayland_client_fd x11_wm_server_fd : Fd)
    (st : ChildState) : ExecResult :=
  let st := set_cloexec wayland_client_fd false st in
  let st := set_cloexec x11_wm_server_fd false st in
  let st := setenv "WAYLAND_SOCKET" (to_string wayland_client_fd) st in
  let x11_wm_server := to_string x11_wm_server_fd in
  let dsp_str := x11_display spawner in
  let st := sigaction_child SIG_IGN st in
  let args := [xwayland_path; dsp_str; "-rootless"; "-wm"; x11_wm_server; "-terminate"] in
  let '(st, args) := foldl push_listen (st, args) (socket_fds spawner) in
  let args := match getenv "MIR_XWAYLAND_OPTION" st with
              | Some xwayland_option => args ++ [xwayland_option]
              | None => args
              end in
  let img := mkImage xwayland_path args (c_environ st) (c_sigusr1 st) (c_inheritable st) in
  if execvp_succeeds then Replaced img
  else Returned img
         ("Failed to execute Xwayland binary: xwayland_path='" +:+ xwayland_path +:+ "'").

(** The [case 0] branch of fork_xwayland_process: exec_xwayland, then abort()
    when it came back. *)
Definition child_main (o : SpawnEnv) (spawner : XWaylandSpawner) (xwayland_path : string)
    (wayland_client_fd x11_wm_server_fd : Fd) (inherited : SigHandler) : ChildFate :=
  match exec_xwayland (execvp_ok o) spawner xwayland_path wayland_client_fd x11_wm_server_fd
          (mkChildState (environ o) inherited []) with
  | Replaced img => Execed img
  | Returned img err => Aborted img err
  end.

Definition add_child (c : ChildProcess) (w : World) : World :=
  mkWorld (conn w) (alive w) (main_loop w) (sigusr1 w) (clock w) (children w ++ [c])
    (trace w ++ [EvFork (child_pid c)]).

Definition fork_xwayland_process (o : SpawnEnv) (spawner : XWaylandSpawner)
    (xwayland_path : string) : M XWaylandProcess :=
  let* wayland_pipe := make_socket_pair (wayland_pipe_result o) in
  let* x11_wm_pipe := make_socket_pair (x11_wm_pipe_result o) in
  log_info "Starting XWayland" >>
  match fork_result o with
  | None => throw (system_error "Failed to fork XWayland process")
  | Some xwayland_pid =>
      let* inherited := gets sigusr1 in
      modify (add_child (mkChild xwayland_pid
        (child_main o spawner xwayland_path (sp_client wayland_pipe) (sp_server x11_wm_pipe)
           inherited))) >>
      ret (mkProcess xwayland_pid (sp_server wayland_pipe) (sp_client x11_wm_pipe))
  end.

Definition set_clock (t : Z) (w : World) : World :=
  mkWorld (conn w) (alive w) (main_loop w) (sigusr1 w) t (children w) (trace w).
Definition advance (ms : Z) (w : World) : World := set_clock (clock w + ms) w.
Definition set_sigusr1 (h : SigHandler) (w : World) : World :=
  mkWorld (conn w) (alive w) (main_loop w) h (clock w) (children w) (trace w).

(** sigaction(SIGUSR1, &action, &old_action) in the parent: installs [h] and
    hands back the previous disposition. *)
Definition sigaction (h : SigHandler) : M SigHandler :=
  let* old_action := gets sigusr1 in
  modify (set_sigusr1 h) >> ret old_action.

(** The value of the static [xserver_ready] at time [now]: the handler sets it
    when SIGUSR1 is delivered. *)
Definition xserver_ready_at (delivered_at : option Z) (now : Z) : bool :=
  match delivered_at with
  | Some t => t <=? now
  | None => false
  end.

(** The loop of spin_wait_for; steady_clock is in milliseconds and
    sleep_for(100ms) advances it by 100. [fuel] bounds the number of sleeps. *)
Fixpoint spin_loop (fuel : nat) (xserver_ready : Z → bool) (end_ now : Z) : Z :=
  match fuel with
  | O => now
  | S fuel' =>
      if (now <? end_) && negb (xserver_ready now)
      then spin_loop fuel' xserver_ready end_ (now + 100)
      else now
  end.

Definition spin_wait_for (xserver_ready : Z → bool) : M bool :=
  let* now := gets clock in
  let end_ := now + 5000 in
  let t := spin_loop 50 xserver_ready end_ now in
  modify (set_clock t) >> ret (xserver_ready t).

(** condition_variable::wait_for(lock, timeout, pred) where the predicate
    becomes true [ready_after] ms from now. *)
Definition wait_for (timeout : Z) (ready_after : option Z) : M bool :=
  match ready_after with
  | Some d =>
      if d <=? timeout then modify (advance (Z.max 0 d)) >> ret true
      else modify (advance timeout) >> ret false
  | None => modify (advance timeout) >> ret false
  end.

(** When the temporary handler sees a SIGUSR1. The handler sets the flag on
    any SIGUSR1 that reaches the parent: the one a ready Xwayland raises, or
    one from any other process, such as the child of an earlier spawn. The
    time is counted from the moment the handler is installed. *)
Definition sigusr1_delivery (o : SpawnEnv) : option Z := sigusr1_after o.

(** [client_lock] on ctx->mutex is taken after the handler is installed and
    held until the function is left, by return or by exception; [wait_for]
    gives it up only while it waits. *)
Definition connect_xwayland_wl_client (o : SpawnEnv) (wayland_fd : Fd) : M wl_client :=
  lock_guard XserverReadyMutex (
    let* old_action := sigaction XserverReadyHandler in
    let* installed := gets clock in
    let xserver_ready := xserver_ready_at ((λ d, installed + Z.max 0 d) <$> sigusr1_delivery o) in
    lock_guard CreateClientMutex (
      let* ctx_ready := wait_for 10000 (client_created_after o) in
      if negb ctx_ready then throw (runtime_error "Creating XWayland wl_client timed out")
      else
        match created_client o with
        | None => throw (runtime_error "Failed to create XWayland wl_client")
        | Some ctx_client =>
            let* ready := spin_wait_for xserver_ready in
            let xwayland_startup_timed_out := negb ready in
            let* _ := sigaction old_action in
            if xwayland_startup_timed_out
            then throw (runtime_error "XWayland server failed to start")
            else ret ctx_client
        end)).

(** XWaylandServer::XWaylandServer *)
Definition XWaylandServer_ctor (o : SpawnEnv) (spawner : XWaylandSpawner)
    (xwayland_path : string) : M XWaylandServer :=
  let* xwayland_process := fork_xwayland_process o spawner xwayland_path in
  let* wayland_client := connect_xwayland_wl_client o (wayland_server_fd xwayland_process) in
  ret (mkServer xwayland_process wayland_client true None).

(** waitpid(pid, &status, WNOHANG): its return value, and what [status] holds
    afterwards. *)
Record WaitpidResult := mkWaitpid {
  wp_ret : Z;
  wp_status : Z
}.

(** sys/wait.h, as glibc defines the macros. *)
Definition WIFEXITED (status : Z) : bool := Z.land status 127 =? 0.
Definition WEXITSTATUS (status : Z) : Z := Z.shiftr (Z.land status 65280) 8.

(** XWaylandServer::is_running: the answer, the object afterwards and what
    was done. *)
Definition is_running (wp : WaitpidResult) (s : XWaylandServer)
    : bool * XWaylandServer * list Event :=
  if running s then
    let s' :=
      if bool_decide (wp_ret wp ≠ 0) then
        mkServer (xwayland_process s) (wayland_client s) false
          (if WIFEXITED (wp_status wp) then Some (WEXITSTATUS (wp_status wp))
           else exit_code s)
      else s in
    (running s', s',
     [EvLock ServerMutex; EvWaitpid (pid (xwayland_process s)); EvUnlock ServerMutex])
  else (running s, s, [EvLock ServerMutex; EvUnlock ServerMutex]).

(** A sequence of is_running() calls, one waitpid answer offered per call. *)
Fixpoint is_running_calls (wps : list WaitpidResult) (s : XWaylandServer)
    : list bool * XWaylandServer * list Event :=
  match wps with
  | [] => ([], s, [])
  | wp :: wps' =>
      let '(r, s1, ev) := is_running wp s in
      let '(rs, s2, evs) := is_running_calls wps' s1 in
      (r :: rs, s2, ev ++ evs)
  end.

(** ** xwayland_connector.cpp *)


Definition exists_or_null {A} (p : option A) : string :=
  if present p then "exists" else "null".

(** XWaylandConnector::~XWaylandConnector; the arguments of the message are
    in the order the source passes them. *)
Definition XWaylandConnector_dtor : M unit :=
  let* c := gets conn in
  if present (spawner c) || present (server c) || present (wm c) || present (wm_event_thread c)
  then throw (fatal_error
         ("XWaylandConnector was not stopped before being destroyed (spawner: "
          +:+ exists_or_null (spawner c) +:+ ", server: " +:+ exists_or_null (wm c)
          +:+ ", wm: " +:+ exists_or_null (spawner c)
          +:+ ", wm_event_thread: " +:+ exists_or_null (wm_event_thread c) +:+ ")"))
  else modify (λ w, mkWorld (conn w) false (main_loop w) (sigusr1 w) (clock w) (children w) (trace w)).

(** [new_spawner] is the XWaylandSpawner that std::make_unique would build. *)
Definition create_spawner (new_spawner : XWaylandSpawner) (lock : unique_lock) : M unique_lock :=
  let* lock := (if lock then ret lock else unique_lock_lock lock) in
  let* c := gets conn in
  match spawner c with
  | Some _ => ret lock
  | None =>
      modify (with_conn (set_spawner (Some new_spawner))) >>
      emit (EvCreate CSpawner) >>
      ret lock
  end.

(** std::move out of a member: the member is left empty. *)
Definition move_out {A} (c : Component) (field : Connector → option A)
    (clear : Connector → Connector) : M (option A) :=
  let* v := gets (field ∘ conn) in
  modify (with_conn clear) >>
  (if present v then emit (EvMove c) else ret tt) >>
  ret v.

(** unique_ptr::reset on a local: runs the destructor when it holds one. *)
Definition reset {A} (c : Component) (local : option A) : M unit :=
  if present local then emit (EvDestroy c) else ret tt.

Definition tear_down (lock : unique_lock) : M unique_lock :=
  let* lock := (if lock then ret lock else unique_lock_lock lock) in
  let* was_running := gets (λ w, present (server (conn w))) in
  let* local_spawner := move_out CSpawner spawner (set_spawner None) in
  let* local_wm_event_thread := move_out CWmEventThread wm_event_thread (set_wm_event_thread None) in
  let* local_wm := move_out CWm wm (set_wm None) in
  let* local_server := move_out CServer server (set_server None) in
  let* lock := unique_lock_unlock lock in
  reset CSpawner local_spawner >>
  reset CWmEventThread local_wm_event_thread >>
  reset CWm local_wm >>
  reset CServer local_server >>
  (if was_running then log_info "XWayland stopped" else ret tt) >>
  ret lock.

(** [x11_support] is whether get_extension("x11-support") is non-null. *)
Definition start (x11_support : bool) (new_spawner : XWaylandSpawner) : M unit :=
  if x11_support then
    let* lock := unique_lock_ctor in
    let* lock := create_spawner new_spawner lock in
    let* c := gets conn in
    (match spawner c with
     | Some sp => log_info ("Listening for X11 connections on DISPLAY " +:+ x11_display sp)
     | None => ret tt
     end) >>
    unique_lock_dtor lock
  else ret tt.

Definition stop : M unit :=
  let* lock := unique_lock_ctor in
  modify (with_conn (set_restart_in_progress false)) >>
  let* lock := tear_down lock in
  unique_lock_dtor lock.

Definition socket_name : M (option string) :=
  lock_guard ConnectorMutex (
    let* c := gets conn in
    match spawner c with
    | Some sp => ret (Some (x11_display sp))
    | None => ret None
    end).

(** main_loop->spawn(task): one more deferred task in the executor's queue. *)
Definition defer (w : World) : World :=
  mkWorld (conn w) (alive w) (S (main_loop w)) (sigusr1 w) (clock w) (children w)
    (trace w ++ [EvDefer]).

(** XWaylandConnector::restart, called with the mutex held. *)
Definition restart : M unit :=
  modify (with_conn (set_restart_in_progress true)) >>
  modify defer.

(** The task that restart() hands to the main loop. *)
Definition restart_task (new_spawner : XWaylandSpawner) : M unit :=
  let* self := gets alive in
  if negb self then ret tt
  else
    let* lock := unique_lock_ctor in
    let* in_progress := gets (restart_in_progress ∘ conn) in
    if negb in_progress then unique_lock_dtor lock
    else
      let* lock := tear_down lock in
      let* lock := (if lock then ret lock else unique_lock_lock lock) in
      let* in_progress := gets (restart_in_progress ∘ conn) in
      if negb in_progress then unique_lock_dtor lock
      else
        modify (with_conn (set_restart_in_progress false)) >>
        let* lock := create_spawner new_spawner lock in
        unique_lock_dtor lock.

(** The constructors of the external collaborators: they build the object or
    throw what the oracle says. *)
Definition XWaylandWM_ctor (o : SpawnEnv) (client : wl_client) (fd : Fd) : M XWaylandWM :=
  match wm_ctor_error o with
  | Some e => throw e
  | None => ret (mkWM client fd)
  end.

Definition ThreadedDispatcher_ctor (o : SpawnEnv) (name : string) (fd : Fd)
    : M ThreadedDispatcher :=
  match thread_ctor_error o with
  | Some e => throw e
  | None => ret (mkThread name fd)
  end.

(** The body of the try block of spawn(). *)
Definition spawn_construction (o : SpawnEnv) (sp : XWaylandSpawner) : M unit :=
  let* path := gets (xwayland_path ∘ conn) in
  let* new_server := XWaylandServer_ctor o sp path in
  modify (with_conn (set_server (Some new_server))) >>
  emit (EvCreate CServer) >>
  let* new_wm := XWaylandWM_ctor o (client new_server) (wm_fd new_server) in
  modify (with_conn (set_wm (Some new_wm))) >>
  emit (EvCreate CWm) >>
  let* new_thread := ThreadedDispatcher_ctor o "Mir/X11 WM Reader" (wm_fd new_server) in
  modify (with_conn (set_wm_event_thread (Some new_thread))) >>
  emit (EvCreate CWmEventThread) >>
  log_info "XWayland is running".

Definition spawn_guard (c : Connector) : bool :=
  present (server c) || negb (present (spawner c)) || restart_in_progress c.

Definition spawn (o : SpawnEnv) : M unit :=
  lock_guard ConnectorMutex (
    let* c := gets conn in
    if spawn_guard c then ret tt
    else
      match spawner c with
      | None => ret tt
      | Some sp =>
          try_catch (spawn_construction o sp)
            (λ e, log_error e "Spawning XWayland failed" >> restart)
      end).

(** The callback of the ReadableFd on the wm descriptor. [handle_events_error]
    is the exception XWaylandWM::handle_events would throw, if any. *)
Definition wm_dispatcher_callback (handle_events_error : option exception) : M unit :=
  lock_guard ConnectorMutex (
    let* c := gets conn in
    match wm c with
    | Some _ =>
        emit EvHandleEvents >>
        match handle_events_error with
        | Some e => throw e
        | None => ret tt
        end
    | None => ret tt
    end).

(** The exception handler given to the ThreadedDispatcher. *)
Definition wm_exception_handler (current_exception : exception) : M unit :=
  log_error current_exception "X11 window manager error, killing XWayland" >>
  lock_guard ConnectorMutex restart.

(** Modelled from the spec: the loop of mir::dispatch::ThreadedDispatcher is
    not part of these sources. Per section 5, "the dispatcher invoking the
    ProtocolBridge is wrapped so that any escaping error is caught and
    converted into a restart() call rather than terminating the thread": one
    readiness notification runs the callback, and an exception escaping it is
    passed to the exception handler, after which the thread goes on. *)
Definition bridge_thread_dispatch (handle_events_error : option exception) : M unit :=
  try_catch (wm_dispatcher_callback handle_events_error) wm_exception_handler.

(** ** The main loop, and runs of operations *)

Definition pop_task (w : World) : World :=
  mkWorld (conn w) (alive w) (Nat.pred (main_loop w)) (sigusr1 w) (clock w) (children w) (trace w).

(** The executor runs the oldest deferred task, when there is one. *)
Definition main_loop_step (new_spawner : XWaylandSpawner) (w : World) : Result unit * World :=
  match main_loop w with
  | O => (Ok tt, w)
  | S _ => restart_task new_spawner (pop_task w)
  end.

(** The operations that reach a Connector, each run to completion: the public
    ones, the Spawner's trigger, a readiness notification on the wm thread,
    and the main loop running a deferred task. *)
Inductive Op :=
| OpStart (x11_support : bool) (new_spawner : XWaylandSpawner)
| OpStop
| OpSocketName
| OpSpawn (o : SpawnEnv)
| OpDispatch (handle_events_error : option exception)
| OpMainLoop (new_spawner : XWaylandSpawner).

Definition run_op (w : World) (op : Op) : World :=
  match op with
  | OpStart x11_support new_spawner => (start x11_support new_spawner w).2
  | OpStop => (stop w).2
  | OpSocketName => (socket_name w).2
  | OpSpawn o => (spawn o w).2
  | OpDispatch err => (bridge_thread_dispatch err w).2
  | OpMainLoop new_spawner => (main_loop_step new_spawner w).2
  end.

Definition run_ops (ops : list Op) (w : World) : World := foldl run_op w ops.

(** A freshly constructed Connector in a host process. *)
Definition fresh_world (xwayland_path : string) (host_sigusr1 : SigHandler) (now : Z) : World :=
  mkWorld (mkConnector xwayland_path None None None None false) true 0%nat host_sigusr1 now [] [].

(** ** Predicates of the specification *)

Definition add_events (evs : list Event) (w : World) : World :=
  mkWorld (conn w) (alive w) (main_loop w) (sigusr1 w) (clock w) (children w) (trace w ++ evs).

(** Stopped: none of the four components exists. *)
Definition stopped (c : Connector) : bool :=
  negb (present (spawner c)) && negb (present (server c)) && negb (present (wm c))
  && negb (present (wm_event_thread c)).

(** The triad is all present or all absent. *)
Definition triad_atomic (c : Connector) : bool :=
  (present (server c) && present (wm c) && present (wm_event_thread c))
  || (negb (present (server c)) && negb (present (wm c)) && negb (present (wm_event_thread c))).

(** Reading a trace with the Connector's mutex [held] or not at its start:
    the mutex is taken only when free and released only when held, members are
    moved out only while it is held, and destructors run only while it is not. *)
Fixpoint lock_discipline (held : bool) (evs : list Event) : bool :=
  match evs with
  | [] => true
  | EvLock ConnectorMutex :: evs' => negb held && lock_discipline true evs'
  | EvUnlock ConnectorMutex :: evs' => held && lock_discipline false evs'
  | EvMove _ :: evs' => held && lock_discipline held evs'
  | EvDestroy _ :: evs' => negb held && lock_discipline held evs'
  | _ :: evs' => lock_discipline held evs'
  end.

(** The events of moving out, and of destroying, the components that exist, in
    the order of tear_down. *)
Definition component_events (ev : Component → Event) (c : Connector) : list Event :=
  (if present (spawner c) then [ev CSpawner] else [])
  ++ (if present (wm_event_thread c) then [ev CWmEventThread] else [])
  ++ (if present (wm c) then [ev CWm] else [])
  ++ (if present (server c) then [ev CServer] else []).

(** What tear_down does on a Connector [c], after the mutex is held. *)
Definition tear_down_events (c : Connector) : list Event :=
  component_events EvMove c ++ [EvUnlock ConnectorMutex] ++ component_events EvDestroy c
  ++ (if present (server c) then [EvLog SevInfo None "XWayland stopped"] else []).

(** The Connector with its four components gone and the restart flag as given. *)
Definition emptied (flag : bool) (c : Connector) : Connector :=
  mkConnector (xwayland_path c) None None None None flag.

Definition set_world_conn (c : Connector) (w : World) : World := with_conn (λ _, c) w.

(** Modelled from the spec: section 7 calls the failures of the socket pair
    and of fork, which the source throws as std::system_error,
    ResourceCreationFailure. *)
Definition is_ResourceCreationFailure (e : exception) : bool :=
  match e with
  | system_error _ => true
  | _ => false
  end.


Definition fate_image (f : ChildFate) : ExecImage :=
  match f with
  | Execed img => img
  | Aborted img _ => img
  end.

(** The invariant of the triad: with no restart pending it is all present or
    all absent. *)
Definition triad_inv (w : World) : Prop :=
  restart_in_progress (conn w) = false → triad_atomic (conn w) = true.

(** Whether ctx->ready was set within the 10 s that wait_for allows. *)
Definition client_handle_in_time (o : SpawnEnv) : bool :=
  match client_created_after o with
  | Some d => d <=? 10000
  | None => false
  end.

(** A list of answers of is_running() in which no [true] follows a [false]. *)
Fixpoint once_false_stays_false (rs : list bool) : bool :=
  match rs with
  | [] => true
  | true :: rs' => once_false_stays_false rs'
  | false :: rs' => forallb negb rs'
  end.

(** The arguments that the loop over the listening sockets appends. *)
Definition listen_args (fds : list Fd) : list string :=
  flat_map (λ fd, ["-listen"; to_string fd]) fds.

(** The image that section 6 of the specification describes: the argument
    vector, the environment with WAYLAND_SOCKET, SIGUSR1 ignored, and the
    descriptors left open across exec. *)
Definition xwayland_image (o : SpawnEnv) (sp : XWaylandSpawner) (path : string)
    (wayland_client_fd x11_wm_server_fd : Fd) : ExecImage :=
  mkImage path
    ([path; x11_display sp; "-rootless"; "-wm"; to_string x11_wm_server_fd; "-terminate"]
     ++ listen_args (socket_fds sp) ++ option_list (environ o !! "MIR_XWAYLAND_OPTION"))
    (<["WAYLAND_SOCKET" := to_string wayland_client_fd]> (environ o))
    SIG_IGN
    ([wayland_client_fd; x11_wm_server_fd] ++ socket_fds sp).

(** ** Concrete inputs *)

Definition spawner_1 : XWaylandSpawner := mkSpawner ":1" [10; 11].

(** Everything succeeds; SIGUSR1 arrives 300 ms after the handler is
    installed. *)
Definition env_good : SpawnEnv :=
  mkSpawnEnv (Some (3, 4)) (Some (5, 6)) (Some 4242)
    (<["MIR_XWAYLAND_OPTION" := "-verbose"]> ∅) true (Some 5) (Some 77) (Some 300) None None.

(** The XWaylandWM constructor throws. *)
Definition env_wm_throws : SpawnEnv :=
  mkSpawnEnv (Some (3, 4)) (Some (5, 6)) (Some 4242) ∅ true (Some 5) (Some 77) (Some 300)
    (Some (foreign_error "xcb connection failed")) None.

(** execvp fails in the child: the path cannot be executed. No SIGUSR1
    reaches the parent. *)
Definition env_bad_path : SpawnEnv :=
  mkSpawnEnv (Some (3, 4)) (Some (5, 6)) (Some 4242) ∅ false (Some 5) (Some 77) None None None.


(** wl_client_create returns nullptr. *)
Definition env_null_client : SpawnEnv :=
  mkSpawnEnv (Some (3, 4)) (Some (5, 6)) (Some 4242) ∅ true (Some 5) None (Some 300) None None.

Definition world_0 : World := fresh_world "/usr/bin/Xwayland" (HostHandler 0) 1000.
Definition world_listening : World := (start true spawner_1 world_0).2.
Definition world_running : World := (spawn env_good world_listening).2.

Definition server_1 : XWaylandServer := mkServer (mkProcess 4242 4 5) 77 true None.

(** ** The remaining members of the two classes *)

Inductive Signal := SIGTERM | SIGKILL.

(** What the destructor of the server does, in order. *)
Inductive ServerAction :=
| SaLog (msg : string)
| SaKill (p : pid_t) (sig : Signal)
| SaSleep (ms : Z)
| SaEvent (e : Event).

(** XWaylandServer::~XWaylandServer. [kill_ret] is what kill(pid, SIGTERM)
    returns, [wp] what waitpid answers if is_running() asks. *)
Definition XWaylandServer_dtor (kill_ret : Z) (wp : WaitpidResult) (s : XWaylandServer)
    : XWaylandServer * list ServerAction :=
  let before := [SaLog "Deiniting xwayland server"; SaKill (pid (xwayland_process s)) SIGTERM] in
  if bool_decide (kill_ret = 0) then
    let '(still_running, s', evs) := is_running wp s in
    (s', before ++ [SaSleep 100] ++ (SaEvent <$> evs)
         ++ (if still_running
             then [SaLog "Xwayland didn't close, killing it";
                   SaKill (pid (xwayland_process s)) SIGKILL]
             else []))
  else (s, before).

(** XWaylandConnector::client_socket_fd, both overloads. *)
Definition client_socket_fd : Z := -1.

(** ** Further predicates *)

(** Reading a trace with the Connector's mutex [held] or not: [None] when the
    mutex is taken while held or released while free, when a member is moved,
    a component created, a task deferred or handle_events called without the
    mutex, or when a destructor runs with it; otherwise whether the mutex is
    held at the end. *)
Fixpoint mutex_after (held : bool) (evs : list Event) : option bool :=
  match evs with
  | [] => Some held
  | EvLock ConnectorMutex :: evs' => if held then None else mutex_after true evs'
  | EvUnlock ConnectorMutex :: evs' => if held then mutex_after false evs' else None
  | EvDestroy _ :: evs' => if held then None else mutex_after held evs'
  | EvMove _ :: evs' | EvCreate _ :: evs' | EvDefer :: evs' | EvHandleEvents :: evs' =>
      if held then mutex_after held evs' else None
  | _ :: evs' => mutex_after held evs'
  end.

(** The events that may occur inside the construction sequence, which runs
    with the mutex held throughout. *)
Definition construction_event (e : Event) : bool :=
  match e with
  | EvLock ConnectorMutex | EvUnlock ConnectorMutex => false
  | EvDestroy _ | EvMove _ | EvDefer | EvHandleEvents | EvWaitpid _ => false
  | _ => true
  end.

(** Whether the handshake of connect_xwayland_wl_client goes through: the
    client handle is there within 10 s and is not null, and SIGUSR1 arrives no
    later than 5 s after the handle. *)
Definition handshake_succeeds (o : SpawnEnv) : bool :=
  client_handle_in_time o && present (created_client o)
  && match sigusr1_delivery o, client_created_after o with
     | Some d, Some c => Z.max 0 d <=? Z.max 0 c + 5000
     | _, _ => false
     end.

Definition construction_succeeds (o : SpawnEnv) : bool :=
  present (wayland_pipe_result o) && present (x11_wm_pipe_result o) && present (fork_result o)
  && handshake_succeeds o
  && negb (present (wm_ctor_error o)) && negb (present (thread_ctor_error o)).

(** Listening on [sp]: only the Spawner exists and no restart is pending. *)
Definition listening_on (sp : XWaylandSpawner) (c : Connector) : Prop :=
  spawner c = Some sp ∧ server c = None ∧ wm c = None ∧ wm_event_thread c = None
  ∧ restart_in_progress c = false.

(** What the handshake returns, read off the timing alone. *)
Definition handshake_result (o : SpawnEnv) : Result wl_client :=
  if negb (client_handle_in_time o)
  then Throw (runtime_error "Creating XWayland wl_client timed out")
  else match created_client o with
       | None => Throw (runtime_error "Failed to create XWayland wl_client")
       | Some c =>
           if handshake_succeeds o then Ok c
           else Throw (runtime_error "XWayland server failed to start")
       end.

(** Xwayland is exec'd, but SIGUSR1 arrives only after 6 s. *)
Definition env_slow_xwayland : SpawnEnv :=
  mkSpawnEnv (Some (3, 4)) (Some (5, 6)) (Some 4242) ∅ true (Some 5) (Some 77) (Some 6000)
    None None.

(** sleep_for(100ms) blocks for at least 100 ms and may block longer. The
    loop of spin_wait_for once more, with the sleeps as long as they turn
    out: the first one takes [100 + oversleep 0] ms, the next one
    [100 + oversleep 1] ms, and so on. With [oversleep] always 0 this is
    [spin_loop]. *)
Fixpoint spin_loop_sleeping (oversleep : nat → Z) (fuel : nat) (xserver_ready : Z → bool)
    (end_ now : Z) : Z :=
  match fuel with
  | O => now
  | S fuel' =>
      if (now <? end_) && negb (xserver_ready now)
      then spin_loop_sleeping (λ i, oversleep (S i)) fuel' xserver_ready end_
             (now + (100 + oversleep O))
      else now
  end.

Definition spin_wait_for_sleeping (oversleep : nat → Z) (xserver_ready : Z → bool) : M bool :=
  let* now := gets clock in
  let end_ := now + 5000 in
  let t := spin_loop_sleeping oversleep 50 xserver_ready end_ now in
  modify (set_clock t) >> ret (xserver_ready t).

(** ** Proofs *)

(** *** Tactics *)

(** Unfolds the monad and the small operations, so that a run of an operation
    becomes a term on the world it started from. *)
Ltac run_m :=
  cbv [bind ret throw try_catch gets modify emit lock_guard log_info log_error
       unique_lock_ctor unique_lock_lock unique_lock_unlock unique_lock_dtor
       move_out reset compose] in *.

(** Brings a world built by the small operations to a record of fields. *)
Ltac world_norm :=
  cbv [emit_ev add_events with_conn set_world_conn emptied defer pop_task
       set_spawner set_server set_wm set_wm_event_thread set_restart_in_progress];
  cbn [conn alive main_loop sigusr1 clock children trace
       xwayland_path spawner server wm wm_event_thread restart_in_progress];
  rewrite <- ?app_assoc; cbn [app].

Ltac destruct_world w :=
  destruct w as [[?path [?sp|] [?sv|] [?wmgr|] [?th|] ?flag] ?al ?ml ?sig ?clk ?ch ?tr].

Ltac unfold_construction :=
  cbv [spawn_construction XWaylandServer_ctor fork_xwayland_process make_socket_pair
       connect_xwayland_wl_client sigaction wait_for spin_wait_for
       XWaylandWM_ctor ThreadedDispatcher_ctor] in *.

Ltac frame_done :=
  eexists _, _; split; [reflexivity|]; repeat split; intros; try discriminate; reflexivity.

Lemma add_events_nil w : add_events [] w = w.
Proof. destruct w. cbv [add_events]. cbn. by rewrite app_nil_r. Qed.

Lemma add_events_app evs1 evs2 w :
  add_events evs2 (add_events evs1 w) = add_events (evs1 ++ evs2) w.
Proof. cbv [add_events]. cbn. by rewrite app_assoc. Qed.

Lemma emit_ev_add_events e w : emit_ev e w = add_events [e] w.
Proof. reflexivity. Qed.

(** *** spawn() under its guard *)

Lemma spawn_guarded o w :
  spawn_guard (conn w) = true →
  spawn o w = (Ok tt, add_events [EvLock ConnectorMutex; EvUnlock ConnectorMutex] w).
Proof.
  intros Hg. unfold spawn. run_m. cbn. rewrite Hg.
  by rewrite !emit_ev_add_events, add_events_app.
Qed.

(** C3: when a server already exists, or no Spawner exists, or a restart is
    in progress, spawn() returns normally and leaves the world as it was,
    but for taking and releasing the mutex: the four components, the restart
    flag, the forked children and the task queue are unchanged, and nothing
    is created. *)
Theorem C3_spawn_is_noop_under_guards (o : SpawnEnv) (w : World) :
  is_Some (server (conn w)) ∨ spawner (conn w) = None ∨ restart_in_progress (conn w) = true →
  spawn o w = (Ok tt, add_events [EvLock ConnectorMutex; EvUnlock ConnectorMutex] w).
Proof.
  intros H. apply spawn_guarded. unfold spawn_guard.
  destruct H as [[s Hs] | [Hs | Hr]].
  - by rewrite Hs.
  - rewrite Hs. cbn. by rewrite orb_true_r.
  - rewrite Hr. by rewrite orb_true_r.
Qed.

(** *** tear_down() and stop() *)

Lemma tear_down_held w :
  tear_down true w =
  (Ok false, add_events (tear_down_events (conn w)) (set_world_conn (emptied (restart_in_progress (conn w)) (conn w)) w)).
Proof.
  destruct_world w; unfold tear_down; run_m;
    cbv [add_events set_world_conn with_conn emptied tear_down_events component_events
         set_spawner set_server set_wm set_wm_event_thread emit_ev present]; cbn;
    rewrite <- ?app_assoc; reflexivity.
Qed.

Lemma stop_run w :
  stop w =
  (Ok tt, add_events (EvLock ConnectorMutex :: tear_down_events (conn w))
            (set_world_conn (emptied false (conn w)) w)).
Proof.
  unfold stop. run_m. rewrite tear_down_held. cbn.
  destruct w as [c al ml sig clk ch tr].
  cbv [add_events set_world_conn with_conn emit_ev emptied set_restart_in_progress]. cbn.
  rewrite <- ?app_assoc. cbn.
  replace (tear_down_events (mkConnector (xwayland_path c) (spawner c) (server c) (wm c) (wm_event_thread c) false))
    with (tear_down_events c) by reflexivity.
  reflexivity.
Qed.

Lemma tear_down_discipline c :
  lock_discipline false (EvLock ConnectorMutex :: tear_down_events c) = true.
Proof.
  destruct c as [path [sp|] [sv|] [wmgr|] [th|] flag]; reflexivity.
Qed.

(** C4: from every state stop() returns normally with the four components
    absent and restart_in_progress false; what it does is: take the mutex,
    move the existing components out of the Connector, release the mutex, and
    only then destroy them, so that no destructor runs with the mutex held. *)
Theorem C4_stop_tears_down_outside_the_lock (w : World) :
  ∃ w', stop w = (Ok tt, w')
    ∧ stopped (conn w') = true
    ∧ restart_in_progress (conn w') = false
    ∧ trace w' = trace w ++ [EvLock ConnectorMutex] ++ component_events EvMove (conn w)
                   ++ [EvUnlock ConnectorMutex] ++ component_events EvDestroy (conn w)
                   ++ (if present (server (conn w)) then [EvLog SevInfo None "XWayland stopped"] else [])
    ∧ lock_discipline false (EvLock ConnectorMutex :: tear_down_events (conn w)) = true.
Proof.
  eexists. split; [apply stop_run|].
  repeat split; try reflexivity. apply tear_down_discipline.
Qed.

(** *** The deferred restart task *)

Lemma restart_task_not_in_progress sp w :
  restart_in_progress (conn w) = false →
  restart_task sp w =
  (Ok tt, add_events (if alive w then [EvLock ConnectorMutex; EvUnlock ConnectorMutex] else []) w).
Proof.
  intros Hf. unfold restart_task. run_m. destruct (alive w) eqn:Ha; cbn.
  - rewrite Hf. cbn. by rewrite !emit_ev_add_events, add_events_app.
  - by rewrite add_events_nil.
Qed.

Lemma main_loop_step_not_in_progress sp w :
  restart_in_progress (conn w) = false →
  conn (main_loop_step sp w).2 = conn w.
Proof.
  intros Hf. unfold main_loop_step. destruct (main_loop w); [done|].
  rewrite restart_task_not_in_progress by done. reflexivity.
Qed.

Lemma main_loop_drain_not_in_progress sps w :
  restart_in_progress (conn w) = false →
  conn (run_ops (OpMainLoop <$> sps) w) = conn w.
Proof.
  revert w. induction sps as [|sp sps IH]; intros w Hf; [done|].
  cbn. unfold run_ops in IH. rewrite IH.
  - by apply main_loop_step_not_in_progress.
  - cbn. by rewrite main_loop_step_not_in_progress.
Qed.

(** C2: let restart() schedule its task, and let stop() run before the main
    loop executes it. After stop() the Connector is stopped with the flag
    cleared and the task still queued; when the task runs it only takes and
    releases the mutex (nothing is moved, destroyed or created), and however
    many queued tasks the main loop runs afterwards, the Connector stays
    stopped: no Spawner comes back. *)
Theorem C2_stop_preempts_deferred_restart (w : World) (new_spawner : XWaylandSpawner)
    (later : list XWaylandSpawner) :
  let w1 := (lock_guard ConnectorMutex restart w).2 in
  let w2 := (stop w1).2 in
  main_loop w2 = S (main_loop w)
  ∧ stopped (conn w2) = true
  ∧ restart_in_progress (conn w2) = false
  ∧ main_loop_step new_spawner w2 =
      (Ok tt, add_events (if alive w then [EvLock ConnectorMutex; EvUnlock ConnectorMutex] else [])
                (pop_task w2))
  ∧ stopped (conn (run_ops (OpMainLoop <$> new_spawner :: later) w2)) = true.
Proof.
  intros w1 w2. subst w2. rewrite stop_run.
  set (w2 := (_, _).2).
  assert (Hf : restart_in_progress (conn w2) = false) by reflexivity.
  assert (Hml : main_loop w2 = S (main_loop w)) by reflexivity.
  repeat split; try reflexivity.
  - unfold main_loop_step. rewrite Hml.
    rewrite restart_task_not_in_progress by reflexivity. reflexivity.
  - rewrite main_loop_drain_not_in_progress by exact Hf. reflexivity.
Qed.

(** *** The construction sequence of spawn() *)

(** What the construction sequence leaves alone, and what it has built when
    it returns normally. *)
Lemma spawn_construction_frame o sp w :
  ∃ r w1, spawn_construction o sp w = (r, w1)
    ∧ main_loop w1 = main_loop w
    ∧ alive w1 = alive w
    ∧ spawner (conn w1) = spawner (conn w)
    ∧ restart_in_progress (conn w1) = restart_in_progress (conn w)
    ∧ (r = Ok tt →
       present (server (conn w1)) && present (wm (conn w1)) && present (wm_event_thread (conn w1)) = true).
Proof.
  unfold_construction. run_m.
  destruct o as [wp xp fr env ex cca cc xra wme the]; cbn.
  destruct wp as [[??]|]; cbn; [|frame_done].
  destruct xp as [[??]|]; cbn; [|frame_done].
  destruct fr as [p|]; cbn; [|frame_done].
  destruct cca as [d|]; cbn; [destruct (d <=? 10000); cbn|]; [|frame_done..].
  destruct cc as [cl|]; cbn; [|frame_done].
  match goal with |- context [negb ?b] => destruct b end; cbn; [|frame_done].
  destruct wme; cbn; [frame_done|].
  destruct the; cbn; frame_done.
Qed.

Lemma spawn_unguarded o sp w :
  spawn_guard (conn w) = false →
  spawner (conn w) = Some sp →
  spawn o w =
  match spawn_construction o sp (emit_ev (EvLock ConnectorMutex) w) with
  | (Ok _, w1) => (Ok tt, emit_ev (EvUnlock ConnectorMutex) w1)
  | (Throw e, w1) =>
      (Ok tt, emit_ev (EvUnlock ConnectorMutex)
                (defer (with_conn (set_restart_in_progress true)
                   (emit_ev (EvLog SevError (Some e) "Spawning XWayland failed") w1))))
  end.
Proof.
  intros Hg Hs. unfold spawn, restart. run_m.
  change (conn (emit_ev (EvLock ConnectorMutex) w)) with (conn w). rewrite Hg, Hs.
  destruct (spawn_construction o sp _) as [[[]|e] w1]; reflexivity.
Qed.

Lemma spawn_returns o w : ∃ w', spawn o w = (Ok tt, w').
Proof.
  destruct (spawn_guard (conn w)) eqn:Hg.
  - rewrite spawn_guarded by done. eauto.
  - destruct (spawner (conn w)) as [sp|] eqn:Hs.
    + rewrite (spawn_unguarded o sp) by done.
      destruct (spawn_construction o sp _) as [[[]|e] w1]; eauto.
    + unfold spawn_guard in Hg. rewrite Hs in Hg. cbn in Hg.
      by rewrite orb_true_r in Hg.
Qed.

(** *** The wm thread *)

Lemma wm_dispatcher_callback_run err w :
  wm_dispatcher_callback err w =
  (match wm (conn w), err with
   | Some _, Some e => Throw e
   | _, _ => Ok tt
   end,
   add_events (if present (wm (conn w))
               then [EvLock ConnectorMutex; EvHandleEvents; EvUnlock ConnectorMutex]
               else [EvLock ConnectorMutex; EvUnlock ConnectorMutex]) w).
Proof.
  unfold wm_dispatcher_callback. run_m. cbn.
  destruct (wm (conn w)); [destruct err|]; cbn;
    by rewrite !emit_ev_add_events, !add_events_app.
Qed.

Lemma wm_exception_handler_run e w :
  wm_exception_handler e w =
  (Ok tt, add_events [EvUnlock ConnectorMutex]
            (defer (with_conn (set_restart_in_progress true)
               (add_events [EvLog SevError (Some e) "X11 window manager error, killing XWayland";
                            EvLock ConnectorMutex] w)))).
Proof.
  unfold wm_exception_handler, restart. run_m. cbn.
  by rewrite !emit_ev_add_events, !add_events_app.
Qed.

(** C10: a readiness notification takes the Connector's mutex, calls
    handle_events() exactly when the window manager exists, and releases the
    mutex; with the window manager absent the callback returns normally and
    changes nothing. *)
Theorem C10_callback_guards_handle_events (err : option exception) (w : World) :
  ∃ r evs, wm_dispatcher_callback err w = (r, add_events evs w)
    ∧ head evs = Some (EvLock ConnectorMutex)
    ∧ last evs = Some (EvUnlock ConnectorMutex)
    ∧ (EvHandleEvents ∈ evs ↔ is_Some (wm (conn w)))
    ∧ (wm (conn w) = None → r = Ok tt ∧ evs = [EvLock ConnectorMutex; EvUnlock ConnectorMutex]).
Proof.
  rewrite wm_dispatcher_callback_run.
  destruct (wm (conn w)) as [m|] eqn:Hwm; cbn [present].
  - eexists _, _. split; [reflexivity|]. split; [reflexivity|]. split; [reflexivity|].
    split; [|discriminate]. split; [eauto|].
    intros _. apply list_elem_of_further, list_elem_of_here.
  - eexists _, _. split; [reflexivity|]. split; [reflexivity|]. split; [reflexivity|].
    split; [|done]. split.
    + intros Hin. repeat (apply elem_of_cons in Hin as [?|Hin]; [discriminate|]).
      by apply elem_of_nil in Hin.
    + intros [? ?]. discriminate.
Qed.

(** C1: spawn() always returns normally. When the construction sequence
    throws, whichever of the three constructors it was, the exception is
    logged, restart() sets restart_in_progress and queues its task, and the
    mutex is released. On the wm thread one notification always comes back
    normally with the thread still in place, and an exception thrown by
    handle_events() is logged and turned into restart(). *)
Theorem C1_failures_become_restart (o : SpawnEnv) (w : World) :
  (∃ w', spawn o w = (Ok tt, w'))
  ∧ (∀ sp e w1,
       spawn_guard (conn w) = false →
       spawner (conn w) = Some sp →
       spawn_construction o sp (emit_ev (EvLock ConnectorMutex) w) = (Throw e, w1) →
       ∃ w', spawn o w = (Ok tt, w')
         ∧ restart_in_progress (conn w') = true
         ∧ main_loop w' = S (main_loop w)
         ∧ trace w' = trace w1 ++ [EvLog SevError (Some e) "Spawning XWayland failed";
                                   EvDefer; EvUnlock ConnectorMutex])
  ∧ (∀ err, ∃ w', bridge_thread_dispatch err w = (Ok tt, w')
       ∧ wm_event_thread (conn w') = wm_event_thread (conn w))
  ∧ (∀ e, is_Some (wm (conn w)) →
       ∃ w', bridge_thread_dispatch (Some e) w = (Ok tt, w')
         ∧ restart_in_progress (conn w') = true
         ∧ main_loop w' = S (main_loop w)
         ∧ trace w' = trace w ++ [EvLock ConnectorMutex; EvHandleEvents; EvUnlock ConnectorMutex;
                                  EvLog SevError (Some e) "X11 window manager error, killing XWayland";
                                  EvLock ConnectorMutex; EvDefer; EvUnlock ConnectorMutex]).
Proof.
  split; [apply spawn_returns|]. split; [|split].
  - intros sp e w1 Hg Hs Hc. rewrite (spawn_unguarded o sp) by done.
    destruct (spawn_construction_frame o sp (emit_ev (EvLock ConnectorMutex) w))
      as (r & w1' & Hrun & Hml & _).
    rewrite Hc in Hrun. injection Hrun as <- <-. rewrite Hc.
    eexists. split; [reflexivity|]. cbn. repeat split.
    + by rewrite Hml.
    + by rewrite <- !app_assoc.
  - intros err. unfold bridge_thread_dispatch, try_catch.
    rewrite wm_dispatcher_callback_run.
    destruct (wm (conn w)) as [m|]; [destruct err as [e|]|]; cbn [present]; eauto.
  - intros e [m Hm]. unfold bridge_thread_dispatch, try_catch.
    rewrite wm_dispatcher_callback_run, Hm. cbn [present].
    rewrite wm_exception_handler_run. eexists. split; [reflexivity|].
    repeat split. cbn. by rewrite <- !app_assoc.
Qed.

(** *** The triad *)

Lemma create_spawner_held sp w :
  ∃ w', create_spawner sp true w = (Ok true, w')
    ∧ server (conn w') = server (conn w) ∧ wm (conn w') = wm (conn w)
    ∧ wm_event_thread (conn w') = wm_event_thread (conn w)
    ∧ restart_in_progress (conn w') = restart_in_progress (conn w).
Proof.
  unfold create_spawner. run_m. destruct (spawner (conn w)); eauto 10.
Qed.

Lemma start_triad x11 sp w : triad_inv w → triad_inv (start x11 sp w).2.
Proof.
  unfold triad_inv, triad_atomic, start. destruct x11; [|done]. run_m.
  destruct (create_spawner_held sp (emit_ev (EvLock ConnectorMutex) w))
    as (w' & -> & Hs & Hw & Ht & Hr).
  destruct (spawner (conn w')); cbn; rewrite Hs, Hw, Ht, Hr; done.
Qed.

Lemma stop_triad w : triad_inv (stop w).2.
Proof. rewrite stop_run. done. Qed.

Lemma socket_name_conn w : conn (socket_name w).2 = conn w.
Proof. unfold socket_name. run_m. by destruct (spawner _). Qed.

Lemma spawn_triad o w : triad_inv w → triad_inv (spawn o w).2.
Proof.
  intros Hinv. destruct (spawn_guard (conn w)) eqn:Hg.
  { by rewrite spawn_guarded. }
  destruct (spawner (conn w)) as [sp|] eqn:Hs.
  2:{ unfold spawn_guard in Hg. rewrite Hs in Hg. cbn in Hg. by rewrite orb_true_r in Hg. }
  rewrite (spawn_unguarded o sp) by done.
  destruct (spawn_construction_frame o sp (emit_ev (EvLock ConnectorMutex) w))
    as (r & w1 & -> & _ & _ & _ & _ & Hok).
  destruct r as [[]|e]; [|done].
  intros _. unfold triad_atomic. cbn [snd].
  change (conn (emit_ev (EvUnlock ConnectorMutex) w1)) with (conn w1).
  by rewrite Hok.
Qed.

Lemma dispatch_triad err w : triad_inv w → triad_inv (bridge_thread_dispatch err w).2.
Proof.
  intros Hinv. unfold bridge_thread_dispatch, try_catch.
  rewrite wm_dispatcher_callback_run.
  destruct (wm (conn w)) as [m|]; [destruct err as [e|]|]; try exact Hinv.
  rewrite wm_exception_handler_run. done.
Qed.

(** The task when the restart is still wanted: everything is torn down and a
    new Spawner listens. *)
Lemma restart_task_in_progress sp w :
  alive w = true →
  restart_in_progress (conn w) = true →
  restart_task sp w =
  (Ok tt, add_events (EvLock ConnectorMutex :: tear_down_events (conn w)
                      ++ [EvLock ConnectorMutex; EvCreate CSpawner; EvUnlock ConnectorMutex])
            (set_world_conn (mkConnector (xwayland_path (conn w)) (Some sp) None None None false) w)).
Proof.
  intros Ha Hf. unfold restart_task. run_m. rewrite Ha. cbn [negb].
  change (conn (emit_ev (EvLock ConnectorMutex) w)) with (conn w). rewrite Hf. cbn [negb].
  rewrite tear_down_held.
  change (conn (emit_ev (EvLock ConnectorMutex) w)) with (conn w). rewrite Hf.
  unfold create_spawner. run_m. repeat (progress (cbn [negb]; world_norm)). reflexivity.
Qed.

Lemma main_loop_triad sp w : triad_inv w → triad_inv (main_loop_step sp w).2.
Proof.
  intros Hinv. unfold main_loop_step. destruct (main_loop w); [done|].
  destruct (restart_in_progress (conn w)) eqn:Hf.
  - destruct (alive w) eqn:Ha.
    + rewrite restart_task_in_progress by (world_norm; done). intros _. reflexivity.
    + unfold restart_task. run_m. change (alive (pop_task w)) with (alive w).
      rewrite Ha. cbn [negb snd]. intros Hf'. change (conn (pop_task w)) with (conn w) in Hf'.
      congruence.
  - rewrite restart_task_not_in_progress by done. exact Hinv.
Qed.

Lemma run_op_triad op w : triad_inv w → triad_inv (run_op w op).
Proof.
  intros Hinv. destruct op; cbn [run_op].
  - by apply start_triad.
  - apply stop_triad.
  - unfold triad_inv. by rewrite socket_name_conn.
  - by apply spawn_triad.
  - by apply dispatch_triad.
  - by apply main_loop_triad.
Qed.

Lemma run_ops_triad ops w : triad_inv w → triad_inv (run_ops ops w).
Proof.
  revert w. induction ops as [|op ops IH]; intros w Hinv; [done|].
  cbn. apply IH. by apply run_op_triad.
Qed.

(** C5, as the code has it: in every state reached from a fresh Connector by
    start, stop, socket_name, spawn, notifications on the wm thread and
    deferred tasks, each run to completion, the server, the window manager
    and the wm thread are all present or all absent whenever no restart is
    pending. *)
Theorem C5_triad_atomic_unless_restart_pending (path : string) (host : SigHandler) (now : Z)
    (ops : list Op) :
  let w := run_ops ops (fresh_world path host now) in
  restart_in_progress (conn w) = false → triad_atomic (conn w) = true.
Proof.
  intros w. apply (run_ops_triad ops). intros _. reflexivity.
Qed.

Lemma C5_triad_atomic_witness :
  let w := run_ops [OpStart true spawner_1; OpSpawn env_good]
             (fresh_world "/usr/bin/Xwayland" (HostHandler 0) 1000) in
  restart_in_progress (conn w) = false ∧ triad_atomic (conn w) = true.
Proof.
  intros w.
  assert (H : restart_in_progress (conn w) = false) by (vm_compute; reflexivity).
  split; [exact H|].
  exact (C5_triad_atomic_unless_restart_pending "/usr/bin/Xwayland" (HostHandler 0) 1000
           [OpStart true spawner_1; OpSpawn env_good] H).
Defined.

(** C5 as stated fails: after start() and a spawn() in which the XWaylandWM
    constructor throws, spawn() has completed with the server present and the
    window manager and the wm thread absent. *)
Lemma C5_counterexample_partial_triad :
  ¬ (∀ ops : list Op,
       triad_atomic (conn (run_ops ops world_0)) = true).
Proof.
  intros H.
  assert (Hbad : triad_atomic (conn (run_ops [OpStart true spawner_1; OpSpawn env_wm_throws] world_0)) = false)
    by (vm_compute; reflexivity).
  rewrite H in Hbad. discriminate.
Qed.

(** *** The startup handshake *)

(** With fuel for every sleep that fits before the deadline, the loop leaves
    by its own condition, after a whole number of sleeps. *)
Lemma spin_loop_spec fuel ready end_ now :
  end_ - now ≤ 100 * Z.of_nat fuel →
  ∃ k, spin_loop fuel ready end_ now = now + 100 * k
    ∧ 0 ≤ k ≤ Z.of_nat fuel
    ∧ (now + 100 * k <? end_) && negb (ready (now + 100 * k)) = false.
Proof.
  revert now. induction fuel as [|fuel IH]; intros now Hfuel; cbn [spin_loop].
  - exists 0. rewrite Z.add_0_r. repeat split; [lia..|].
    rewrite (proj2 (Z.ltb_ge now end_)) by lia. done.
  - destruct ((now <? end_) && negb (ready now)) eqn:Hc.
    + apply andb_true_iff in Hc as [Hlt _]. apply Z.ltb_lt in Hlt.
      destruct (IH (now + 100)) as (k & Hk & Hrange & Hexit); [lia|].
      exists (k + 1). replace (now + 100 * (k + 1)) with (now + 100 + 100 * k) by lia.
      repeat split; [exact Hk|lia..|exact Hexit].
    + exists 0. rewrite Z.add_0_r. repeat split; [lia..|exact Hc].
Qed.

(** spin_wait_for gives up after 5 s exactly when the flag was never seen
    set; it returns the flag. *)
Lemma spin_wait_for_bounded ready w :
  ∃ t, spin_wait_for ready w = (Ok (ready t), set_clock t w)
    ∧ clock w ≤ t ≤ clock w + 5000
    ∧ (ready t = false → t = clock w + 5000).
Proof.
  unfold spin_wait_for. run_m. eexists. split; [reflexivity|].
  destruct (spin_loop_spec 50 ready (clock w + 5000) (clock w)) as (k & -> & Hrange & Hexit); [lia|].
  split; [lia|]. intros Hr. rewrite Hr in Hexit. cbn [negb] in Hexit.
  rewrite andb_true_r in Hexit. apply Z.ltb_ge in Hexit. lia.
Qed.

Lemma wait_for_result timeout ready_after w :
  ∃ w', wait_for timeout ready_after w =
          (Ok (match ready_after with Some d => d <=? timeout | None => false end), w')
    ∧ conn w' = conn w ∧ sigusr1 w' = sigusr1 w ∧ children w' = children w
    ∧ trace w' = trace w ∧ main_loop w' = main_loop w ∧ alive w' = alive w.
Proof.
  unfold wait_for. run_m. destruct ready_after as [d|]; [destruct (d <=? timeout)|]; eauto 10.
Qed.

(** The two throws before the spin wait leave the temporary handler in
    place. *)
Lemma connect_client_failure o fd w :
  client_handle_in_time o = false ∨ created_client o = None →
  ∃ e w', connect_xwayland_wl_client o fd w = (Throw e, w')
    ∧ sigusr1 w' = XserverReadyHandler
    ∧ (e = runtime_error "Creating XWayland wl_client timed out"
       ∨ e = runtime_error "Failed to create XWayland wl_client")
    ∧ conn w' = conn w ∧ children w' = children w.
Proof.
  intros Hfail. unfold connect_xwayland_wl_client, sigaction, lock_guard. run_m.
  match goal with |- context [wait_for 10000 ?r ?w0] =>
    destruct (wait_for_result 10000 r w0) as (w1 & -> & Hconn & Hsig & Hch & _) end.
  fold (client_handle_in_time o).
  destruct (client_handle_in_time o) eqn:Hin; cbn [negb].
  - destruct Hfail as [?|Hnull]; [done|]. rewrite Hnull.
    eexists _, _. split; [reflexivity|]. split_and!.
    + exact Hsig.
    + right; reflexivity.
    + exact Hconn.
    + exact Hch.
  - eexists _, _. split; [reflexivity|]. split_and!.
    + exact Hsig.
    + left; reflexivity.
    + exact Hconn.
    + exact Hch.
Qed.

(** Once the client handle exists the handler is put back, whether the
    readiness signal came or the 5 s ran out. *)
Lemma connect_after_spin_wait o fd w c :
  client_handle_in_time o = true →
  created_client o = Some c →
  ∃ r w', connect_xwayland_wl_client o fd w = (r, w')
    ∧ sigusr1 w' = sigusr1 w
    ∧ (r = Ok c ∨ r = Throw (runtime_error "XWayland server failed to start"))
    ∧ (sigusr1_delivery o = None → r = Throw (runtime_error "XWayland server failed to start"))
    ∧ conn w' = conn w ∧ children w' = children w.
Proof.
  intros Hin Hc. unfold connect_xwayland_wl_client, sigaction, lock_guard. run_m.
  match goal with |- context [wait_for 10000 ?r ?w0] =>
    destruct (wait_for_result 10000 r w0) as (w1 & -> & Hconn & Hsig & Hch & _) end.
  fold (client_handle_in_time o). rewrite Hin, Hc. cbn [negb].
  match goal with |- context [spin_wait_for ?r w1] =>
    destruct (spin_wait_for_bounded r w1) as (t & -> & _ & _); set (ready := r) end.
  assert (Hnever : sigusr1_delivery o = None → ready t = false).
  { intros Hd. subst ready. rewrite Hd. reflexivity. }
  destruct (ready t) eqn:Hr; cbn [negb].
  - eexists _, _. split; [reflexivity|]. split_and!.
    + reflexivity.
    + left; reflexivity.
    + intros Hd. specialize (Hnever Hd). discriminate.
    + exact Hconn.
    + exact Hch.
  - eexists _, _. split; [reflexivity|]. split_and!.
    + reflexivity.
    + right; reflexivity.
    + reflexivity.
    + exact Hconn.
    + exact Hch.
Qed.

(** C6, what the code does where it departs from the claim: when the client
    handle is not created in time, or is null, the handshake throws with the
    temporary SIGUSR1 handler still installed, so the disposition the host
    had before is not restored. *)
Theorem C6_handler_left_installed_on_client_failure (o : SpawnEnv) (fd : Fd) (w : World) :
  sigusr1 w ≠ XserverReadyHandler →
  client_handle_in_time o = false ∨ created_client o = None →
  ∃ e w', connect_xwayland_wl_client o fd w = (Throw e, w')
    ∧ sigusr1 w' = XserverReadyHandler
    ∧ sigusr1 w' ≠ sigusr1 w.
Proof.
  intros Hprior Hfail.
  destruct (connect_client_failure o fd w Hfail) as (e & w' & Hrun & Hsig & _).
  exists e, w'. repeat split; [done..|]. rewrite Hsig. congruence.
Qed.

Lemma C6_handler_left_installed_witness :
  ∃ e w', connect_xwayland_wl_client env_null_client 4 world_listening = (Throw e, w')
    ∧ sigusr1 w' = XserverReadyHandler
    ∧ sigusr1 w' ≠ sigusr1 world_listening.
Proof.
  apply (C6_handler_left_installed_on_client_failure env_null_client 4 world_listening).
  - discriminate.
  - right. reflexivity.
Defined.

(** *** is_running() *)

Lemma is_running_stopped wp s :
  running s = false →
  is_running wp s = (false, s, [EvLock ServerMutex; EvUnlock ServerMutex]).
Proof. intros Hr. unfold is_running. rewrite Hr. reflexivity. Qed.

Lemma is_running_calls_stopped wps s :
  running s = false →
  is_running_calls wps s =
  (replicate (length wps) false, s,
   concat (replicate (length wps) [EvLock ServerMutex; EvUnlock ServerMutex])).
Proof.
  intros Hr. induction wps as [|wp wps IH]; [reflexivity|].
  cbn [is_running_calls]. rewrite is_running_stopped by done. rewrite IH. reflexivity.
Qed.

Lemma is_running_answer wp s :
  (is_running wp s).1.1 = running (is_running wp s).1.2.
Proof.
  unfold is_running. destruct (running s) eqn:Hr; cbn [fst snd]; [reflexivity|].
  by rewrite Hr.
Qed.

Lemma forallb_negb_replicate n : forallb negb (replicate n false) = true.
Proof. induction n; [reflexivity|]. cbn. exact IHn. Qed.

Lemma is_running_calls_monotone wps s :
  once_false_stays_false (is_running_calls wps s).1.1 = true.
Proof.
  revert s. induction wps as [|wp wps IH]; intros s; [reflexivity|].
  cbn [is_running_calls].
  pose proof (is_running_answer wp s) as Hans.
  destruct (is_running wp s) as [[r s1] ev]. cbn [fst snd] in Hans.
  specialize (IH s1).
  destruct r.
  - destruct (is_running_calls wps s1) as [[rs s2] evs]. exact IH.
  - rewrite is_running_calls_stopped by done. cbn [fst once_false_stays_false].
    apply forallb_negb_replicate.
Qed.

(** C7: is_running() takes the server's mutex and, while [running] holds,
    asks waitpid once. A non-zero answer clears [running], and records the
    exit status when the child exited; once [running] is clear a call asks
    waitpid no more, answers false and leaves the object as it is. Over any
    sequence of calls no true answer follows a false one. *)
Theorem C7_is_running_latches (s : XWaylandServer) (wp : WaitpidResult)
    (wps : list WaitpidResult) :
  (running s = true → wp_ret wp ≠ 0 →
     is_running wp s =
     (false,
      mkServer (xwayland_process s) (wayland_client s) false
        (if WIFEXITED (wp_status wp) then Some (WEXITSTATUS (wp_status wp)) else exit_code s),
      [EvLock ServerMutex; EvWaitpid (pid (xwayland_process s)); EvUnlock ServerMutex]))
  ∧ (running s = true → wp_ret wp = 0 →
     is_running wp s =
     (true, s, [EvLock ServerMutex; EvWaitpid (pid (xwayland_process s)); EvUnlock ServerMutex]))
  ∧ (running s = false →
     is_running wp s = (false, s, [EvLock ServerMutex; EvUnlock ServerMutex])
     ∧ is_running_calls wps s =
       (replicate (length wps) false, s,
        concat (replicate (length wps) [EvLock ServerMutex; EvUnlock ServerMutex])))
  ∧ once_false_stays_false (is_running_calls wps s).1.1 = true.
Proof.
  split_and!.
  - intros Hr Hret. unfold is_running. rewrite Hr.
    rewrite bool_decide_eq_true_2 by done. reflexivity.
  - intros Hr Hret. unfold is_running. rewrite Hr.
    rewrite bool_decide_eq_false_2 by (intros H; by apply H). by rewrite Hr.
  - intros Hr. split; [by apply is_running_stopped|by apply is_running_calls_stopped].
  - apply is_running_calls_monotone.
Qed.

(** The child exits with status 3 between the second and the third call. *)
Lemma C7_is_running_witness :
  is_running (mkWaitpid 4242 768) server_1 =
    (false, mkServer (mkProcess 4242 4 5) 77 false (Some 3),
     [EvLock ServerMutex; EvWaitpid 4242; EvUnlock ServerMutex])
  ∧ (is_running_calls [mkWaitpid 0 0; mkWaitpid 0 0; mkWaitpid 4242 768; mkWaitpid (-1) 0]
       server_1).1.1 = [true; true; false; false].
Proof.
  split.
  - exact (proj1 (C7_is_running_latches server_1 (mkWaitpid 4242 768) []) eq_refl
             ltac:(discriminate)).
  - vm_compute. reflexivity.
Defined.

(** *** The forked child *)

Lemma foldl_push_listen fds st args :
  foldl push_listen (st, args) fds =
  (mkChildState (c_environ st) (c_sigusr1 st) (c_inheritable st ++ fds), args ++ listen_args fds).
Proof.
  revert st args. induction fds as [|fd fds IH]; intros st args.
  - cbn. rewrite !app_nil_r. by destruct st.
  - cbn [foldl]. unfold push_listen at 2. cbn [fst snd]. rewrite IH.
    unfold set_cloexec, listen_args. cbn [c_environ c_sigusr1 c_inheritable flat_map].
    by rewrite <- !app_assoc.
Qed.

Lemma child_main_image o sp path wfd xfd inherited :
  child_main o sp path wfd xfd inherited =
  if execvp_ok o then Execed (xwayland_image o sp path wfd xfd)
  else Aborted (xwayland_image o sp path wfd xfd)
         ("Failed to execute Xwayland binary: xwayland_path='" +:+ path +:+ "'").
Proof.
  unfold child_main, exec_xwayland. rewrite foldl_push_listen.
  unfold getenv, sigaction_child, setenv, set_cloexec, xwayland_image.
  cbn [c_environ c_sigusr1 c_inheritable].
  rewrite lookup_insert_ne by discriminate.
  destruct (environ o !! "MIR_XWAYLAND_OPTION") as [opt|];
    destruct (execvp_ok o); cbn [option_list option_rect app];
    rewrite <- ?app_assoc, ?app_nil_r; reflexivity.
Qed.

Lemma fork_xwayland_process_ok o sp path w p w' :
  fork_xwayland_process o sp path w = (Ok p, w') →
  ∃ wc ws xc xs,
    wayland_pipe_result o = Some (wc, ws)
    ∧ x11_wm_pipe_result o = Some (xc, xs)
    ∧ fork_result o = Some (pid p)
    ∧ p = mkProcess (pid p) ws xc
    ∧ children w' = children w ++ [mkChild (pid p) (child_main o sp path wc xs (sigusr1 w))]
    ∧ conn w' = conn w.
Proof.
  unfold fork_xwayland_process, make_socket_pair. run_m.
  destruct (wayland_pipe_result o) as [[wc ws]|]; [|discriminate].
  destruct (x11_wm_pipe_result o) as [[xc xs]|]; [|discriminate].
  destruct (fork_result o) as [child|]; [|discriminate].
  intros [= <- <-]. exists wc, ws, xc, xs. split_and!; reflexivity.
Qed.

(** C9: whenever fork_xwayland_process has forked a child, that child calls
    execvp on the Xwayland path with the argument vector
    [path, display, -rootless, -wm, <wm fd>, -terminate], then -listen <fd>
    for each listening socket, then the value of MIR_XWAYLAND_OPTION when it
    is set; WAYLAND_SOCKET holds the number of the child's end of the Wayland
    socket pair, SIGUSR1 is ignored, and the child has aborted when execvp
    failed. The parent keeps the other two ends. *)
Theorem C9_child_exec_arguments (o : SpawnEnv) (sp : XWaylandSpawner) (path : string)
    (w w' : World) (p : XWaylandProcess) :
  fork_xwayland_process o sp path w = (Ok p, w') →
  ∃ wc ws xc xs fate,
    wayland_pipe_result o = Some (wc, ws)
    ∧ x11_wm_pipe_result o = Some (xc, xs)
    ∧ wayland_server_fd p = ws ∧ x11_wm_client_fd p = xc
    ∧ children w' = children w ++ [mkChild (pid p) fate]
    ∧ exec_file (fate_image fate) = path
    ∧ exec_argv (fate_image fate) =
        [path; x11_display sp; "-rootless"; "-wm"; to_string xs; "-terminate"]
        ++ flat_map (λ fd, ["-listen"; to_string fd]) (socket_fds sp)
        ++ option_list (environ o !! "MIR_XWAYLAND_OPTION")
    ∧ exec_environ (fate_image fate) !! "WAYLAND_SOCKET" = Some (to_string wc)
    ∧ exec_sigusr1 (fate_image fate) = SIG_IGN
    ∧ (execvp_ok o = true → fate = Execed (fate_image fate))
    ∧ (execvp_ok o = false → ∃ err, fate = Aborted (fate_image fate) err).
Proof.
  intros Hfork.
  destruct (fork_xwayland_process_ok _ _ _ _ _ _ Hfork)
    as (wc & ws & xc & xs & Hw & Hx & _ & Hp & Hch & _).
  exists wc, ws, xc, xs, (child_main o sp path wc xs (sigusr1 w)).
  rewrite child_main_image in *.
  split_and!; try done.
  - by rewrite Hp.
  - by rewrite Hp.
  - by destruct (execvp_ok o).
  - by destruct (execvp_ok o).
  - destruct (execvp_ok o); cbn [fate_image xwayland_image exec_environ].
    all: apply lookup_insert_eq.
  - by destruct (execvp_ok o).
  - intros ->. reflexivity.
  - intros ->. eauto.
Qed.

Lemma C9_child_exec_arguments_witness :
  ∃ fate,
    children (fork_xwayland_process env_good spawner_1 "/usr/bin/Xwayland" world_listening).2
      = [mkChild 4242 fate]
    ∧ exec_argv (fate_image fate) =
        ["/usr/bin/Xwayland"; ":1"; "-rootless"; "-wm"; "6"; "-terminate";
         "-listen"; "10"; "-listen"; "11"; "-verbose"]
    ∧ exec_environ (fate_image fate) !! "WAYLAND_SOCKET" = Some "3".
Proof.
  destruct (C9_child_exec_arguments env_good spawner_1 "/usr/bin/Xwayland" world_listening
              (fork_xwayland_process env_good spawner_1 "/usr/bin/Xwayland" world_listening).2
              (mkProcess 4242 4 5))
    as (wc & ws & xc & xs & fate & Hw & Hx & _ & _ & Hch & _ & Hargv & Henv & _).
  { vm_compute. reflexivity. }
  injection Hw as <- <-. injection Hx as <- <-.
  exists fate. split; [exact Hch|]. split; [|exact Henv].
  rewrite Hargv. vm_compute. reflexivity.
Defined.

(** *** The handshake under every oracle *)

(** The loop stops at the first poll at which the flag is set or the deadline
    has passed. *)
Lemma spin_loop_first fuel ready end_ now :
  end_ - now ≤ 100 * Z.of_nat fuel →
  ∃ k, spin_loop fuel ready end_ now = now + 100 * k
    ∧ 0 ≤ k ≤ Z.of_nat fuel
    ∧ (now + 100 * k <? end_) && negb (ready (now + 100 * k)) = false
    ∧ ∀ j, 0 ≤ j < k → now + 100 * j < end_ ∧ ready (now + 100 * j) = false.
Proof.
  revert now. induction fuel as [|fuel IH]; intros now Hfuel; cbn [spin_loop].
  - exists 0. rewrite Z.add_0_r. split_and!; [done|lia..| |lia].
    rewrite (proj2 (Z.ltb_ge now end_)) by lia. done.
  - destruct ((now <? end_) && negb (ready now)) eqn:Hc.
    + apply andb_true_iff in Hc as [Hlt Hnr]. apply Z.ltb_lt in Hlt.
      apply negb_true_iff in Hnr.
      destruct (IH (now + 100)) as (k & Hk & Hrange & Hexit & Hbefore); [lia|].
      exists (k + 1). replace (now + 100 * (k + 1)) with (now + 100 + 100 * k) by lia.
      split_and!; [exact Hk|lia..|exact Hexit|].
      intros j Hj. destruct (decide (j = 0)) as [->|Hj0].
      * rewrite Z.add_0_r. done.
      * replace (now + 100 * j) with (now + 100 + 100 * (j - 1)) by lia.
        apply Hbefore. lia.
    + exists 0. rewrite Z.add_0_r. split_and!; [done|lia..|exact Hc|lia].
Qed.

(** What spin_wait_for returns and when, for a given delivery of SIGUSR1. *)
Lemma spin_wait_for_run (delivered_at : option Z) (w : World) :
  ∃ k, spin_wait_for (xserver_ready_at delivered_at) w
       = (Ok (match delivered_at with Some d => d <=? clock w + 5000 | None => false end),
          set_clock (clock w + 100 * k) w)
    ∧ 0 ≤ k ≤ 50
    ∧ match delivered_at with
      | Some d => if d <=? clock w + 5000 then clock w + 100 * k < Z.max d (clock w) + 100
                  else k = 50
      | None => k = 50
      end.
Proof.
  unfold spin_wait_for. run_m.
  destruct (spin_loop_first 50 (xserver_ready_at delivered_at) (clock w + 5000) (clock w))
    as (k & -> & Hrange & Hexit & Hbefore); [lia|].
  exists k. destruct delivered_at as [d|]; cbn [xserver_ready_at] in *.
  - assert (Hlast : 0 < k → clock w + 100 * (k - 1) < d).
    { intros Hk. destruct (Hbefore (k - 1)) as [_ Hnr]; [lia|]. by apply Z.leb_gt in Hnr. }
    destruct (d <=? clock w + 5000) eqn:Hd.
    + apply Z.leb_le in Hd.
      assert (Hready : (d <=? clock w + 100 * k) = true).
      { destruct (d <=? clock w + 100 * k) eqn:Hr; [done|]. apply Z.leb_gt in Hr.
        cbn [negb] in Hexit. rewrite andb_true_r in Hexit. apply Z.ltb_ge in Hexit. lia. }
      rewrite Hready. split_and!; [done|lia..].
    + apply Z.leb_gt in Hd.
      assert (Hready : (d <=? clock w + 100 * k) = false) by (apply Z.leb_gt; lia).
      rewrite Hready in *. cbn [negb] in Hexit. rewrite andb_true_r in Hexit.
      apply Z.ltb_ge in Hexit. split_and!; [done|lia..].
  - cbn [negb] in Hexit. rewrite andb_true_r in Hexit. apply Z.ltb_ge in Hexit.
    split_and!; [done|lia..].
Qed.

Lemma wait_for_clock timeout ready_after w :
  0 ≤ timeout →
  ∃ w', wait_for timeout ready_after w =
          (Ok (match ready_after with Some d => d <=? timeout | None => false end), w')
    ∧ w' = set_clock (clock w') w
    ∧ clock w' = clock w + (match ready_after with
                            | Some d => if d <=? timeout then Z.max 0 d else timeout
                            | None => timeout
                            end).
Proof.
  intros Ht. unfold wait_for. run_m.
  destruct ready_after as [d|]; [destruct (d <=? timeout)|]; eexists; split_and!; reflexivity.
Qed.

Ltac handshake_done :=
  eexists; (split; [reflexivity|]); cbn; split_and!;
  first [reflexivity | lia | by rewrite <- !app_assoc].

(** What the handshake returns, how long it takes and what it leaves alone. *)
Lemma handshake_run (o : SpawnEnv) (fd : Fd) (w : World) :
  ∃ w', connect_xwayland_wl_client o fd w = (handshake_result o, w')
    ∧ clock w ≤ clock w' ≤ clock w + 15000
    ∧ trace w' = trace w ++ [EvLock XserverReadyMutex; EvLock CreateClientMutex;
                             EvUnlock CreateClientMutex; EvUnlock XserverReadyMutex]
    ∧ conn w' = conn w ∧ children w' = children w
    ∧ main_loop w' = main_loop w ∧ alive w' = alive w.
Proof.
  unfold connect_xwayland_wl_client, sigaction, lock_guard, handshake_result. run_m.
  match goal with |- context [wait_for 10000 ?r ?w0] =>
    destruct (wait_for_clock 10000 r w0) as (w1 & -> & Hw1 & Hclk); [lia|] end.
  fold (client_handle_in_time o).
  change (clock (emit_ev (EvLock CreateClientMutex)
                   (set_sigusr1 XserverReadyHandler (emit_ev (EvLock XserverReadyMutex) w))))
    with (clock w) in Hclk.
  change (clock (set_sigusr1 XserverReadyHandler (emit_ev (EvLock XserverReadyMutex) w)))
    with (clock w).
  rewrite Hclk in Hw1. clear Hclk. subst w1.
  unfold handshake_succeeds, client_handle_in_time in *.
  destruct (client_created_after o) as [c|] eqn:Hc; [destruct (c <=? 10000) eqn:Hin|];
    cbn [negb andb].
  - apply Z.leb_le in Hin.
    destruct (created_client o) as [cl|] eqn:Hcl; cbn [present andb].
    + match goal with |- context [spin_wait_for (xserver_ready_at ?d) ?w1] =>
        destruct (spin_wait_for_run d w1) as (k & -> & Hk & _) end.
      cbn [clock set_clock].
      destruct (sigusr1_delivery o) as [d|]; cbn [fmap option_fmap option_map negb].
      * replace (clock w + 0 `max` d <=? clock w + 0 `max` c + 5000)
          with (0 `max` d <=? 0 `max` c + 5000)
          by (destruct (Z.leb_spec (0 `max` d) (0 `max` c + 5000));
              [symmetry; apply Z.leb_le|symmetry; apply Z.leb_gt]; lia).
        destruct (0 `max` d <=? 0 `max` c + 5000); cbn [negb]; handshake_done.
      * handshake_done.
    + handshake_done.
  - handshake_done.
  - handshake_done.
Qed.

Lemma handshake_result_ok o :
  handshake_succeeds o = true →
  ∃ c, created_client o = Some c ∧ handshake_result o = Ok c.
Proof.
  unfold handshake_result. intros Hs. rewrite Hs.
  unfold handshake_succeeds in Hs.
  apply andb_true_iff in Hs as [Hs _]. apply andb_true_iff in Hs as [Hin Hc].
  rewrite Hin. destruct (created_client o) as [c|]; [eauto|discriminate].
Qed.

Lemma handshake_result_fail o :
  handshake_succeeds o = false →
  ∃ msg, handshake_result o = Throw (runtime_error msg).
Proof.
  unfold handshake_result. intros ->.
  destruct (client_handle_in_time o); [destruct (created_client o)|]; cbn [negb]; eauto.
Qed.

(** *** A path that cannot be executed *)



(** What the timing of the handshake decides, one direction at a time. *)
Lemma handshake_result_cases o :
  (client_handle_in_time o = false →
   handshake_result o = Throw (runtime_error "Creating XWayland wl_client timed out"))
  ∧ (client_handle_in_time o = true → created_client o = None →
     handshake_result o = Throw (runtime_error "Failed to create XWayland wl_client"))
  ∧ (client_handle_in_time o = true → is_Some (created_client o) →
     sigusr1_delivery o = None →
     handshake_result o = Throw (runtime_error "XWayland server failed to start"))
  ∧ (∀ c, client_handle_in_time o = true → created_client o = Some c →
     handshake_succeeds o = true → handshake_result o = Ok c)
  ∧ (∀ c, handshake_result o = Ok c →
     client_handle_in_time o = true ∧ created_client o = Some c
     ∧ is_Some (sigusr1_delivery o))
  ∧ (∀ e, handshake_result o = Throw e →
     is_ResourceCreationFailure e = false
     ∧ (e = runtime_error "Creating XWayland wl_client timed out"
        ∨ e = runtime_error "Failed to create XWayland wl_client"
        ∨ e = runtime_error "XWayland server failed to start"))
  ∧ (sigusr1_delivery o = None → ∃ e, handshake_result o = Throw e).
Proof.
  unfold handshake_result, handshake_succeeds.
  destruct (client_handle_in_time o); cbn [negb andb];
    [destruct (created_client o) as [c|]; cbn [present andb];
     [destruct (sigusr1_delivery o) as [d|];
      [destruct (client_created_after o) as [t|];
       [destruct (0 `max` d <=? 0 `max` t + 5000)|]|]|]|].
  all: split_and!; intros; try discriminate; simplify_eq.
  all: try match goal with H : is_Some None |- _ => by destruct H end.
  all: first [reflexivity | solve [repeat split; eauto 10]].
Qed.




(** *** The theorems at concrete inputs *)

Lemma C1_failures_become_restart_witness :
  ∃ w', spawn env_wm_throws world_listening = (Ok tt, w')
    ∧ restart_in_progress (conn w') = true
    ∧ main_loop w' = 1%nat.
Proof.
  destruct (proj1 (proj2 (C1_failures_become_restart env_wm_throws world_listening))
              spawner_1 (foreign_error "xcb connection failed")
              (spawn_construction env_wm_throws spawner_1
                 (emit_ev (EvLock ConnectorMutex) world_listening)).2)
    as (w' & Hrun & Hflag & Hml & _).
  - vm_compute. reflexivity.
  - vm_compute. reflexivity.
  - vm_compute. reflexivity.
  - exists w'. split; [exact Hrun|]. split; [exact Hflag|exact Hml].
Defined.

Lemma C3_spawn_is_noop_witness :
  is_Some (server (conn world_running))
  ∧ spawn env_good world_running
    = (Ok tt, add_events [EvLock ConnectorMutex; EvUnlock ConnectorMutex] world_running).
Proof.
  assert (H : is_Some (server (conn world_running))) by (vm_compute; eauto).
  split; [exact H|].
  exact (C3_spawn_is_noop_under_guards env_good world_running (or_introl H)).
Defined.

(** ** Further properties of the code *)

(** *** More on the spin wait and the handshake *)

(** With every sleep taking its 100 ms and no more, the loop is the one of
    [spin_loop]. *)
Lemma spin_loop_sleeping_nominal fuel ready end_ now :
  spin_loop_sleeping (λ _, 0) fuel ready end_ now = spin_loop fuel ready end_ now.
Proof.
  revert now. induction fuel as [|fuel IH]; intros now; cbn [spin_loop_sleeping spin_loop].
  - reflexivity.
  - rewrite Z.add_0_r, IH. reflexivity.
Qed.

(** However long the sleeps take, the loop leaves by its own condition, and
    at once when that condition fails at the first check. *)
Lemma spin_loop_sleeping_spec oversleep fuel ready end_ now :
  (∀ i, 0 ≤ oversleep i) →
  end_ - now ≤ 100 * Z.of_nat fuel →
  now ≤ spin_loop_sleeping oversleep fuel ready end_ now
  ∧ (spin_loop_sleeping oversleep fuel ready end_ now <? end_)
    && negb (ready (spin_loop_sleeping oversleep fuel ready end_ now)) = false
  ∧ ((now <? end_) && negb (ready now) = false →
     spin_loop_sleeping oversleep fuel ready end_ now = now).
Proof.
  revert oversleep now. induction fuel as [|fuel IH]; intros oversleep now Hover Hfuel;
    cbn [spin_loop_sleeping].
  - split_and!; [lia| |done].
    rewrite (proj2 (Z.ltb_ge now end_)) by lia. done.
  - destruct ((now <? end_) && negb (ready now)) eqn:Hc.
    + apply andb_true_iff in Hc as [Hlt _]. apply Z.ltb_lt in Hlt.
      pose proof (Hover O) as H0.
      destruct (IH (λ i, oversleep (S i)) (now + (100 + oversleep O))) as (Hle & Hexit & _).
      * intros i. apply Hover.
      * lia.
      * split_and!; [lia|exact Hexit|discriminate].
    + split_and!; [lia|exact Hc|done].
Qed.

(** X1: spin_wait_for, however much longer than 100 ms its sleeps take,
    changes nothing but the clock, which never runs backwards. When SIGUSR1
    was already delivered it answers true at once, without sleeping; it
    answers true whenever SIGUSR1 is delivered no later than 5 s after it
    started; when it answers true the signal had arrived by the time it
    returned; when it answers false at least 5 s have passed and the signal had
    not arrived by then. With sleeps of exactly 100 ms it is the spin_wait_for
    of the handshake. *)
Theorem spin_wait_for_outcome (oversleep : nat → Z) (delivered_at : option Z) (w : World) :
  (∀ i, 0 ≤ oversleep i) →
  (∃ b t, spin_wait_for_sleeping oversleep (xserver_ready_at delivered_at) w
          = (Ok b, set_clock t w)
     ∧ clock w ≤ t
     ∧ (∀ d, delivered_at = Some d → d ≤ clock w → b = true ∧ t = clock w)
     ∧ (∀ d, delivered_at = Some d → d ≤ clock w + 5000 → b = true)
     ∧ (b = true → ∃ d, delivered_at = Some d ∧ d ≤ t)
     ∧ (b = false → clock w + 5000 ≤ t ∧ ∀ d, delivered_at = Some d → t < d))
  ∧ spin_wait_for_sleeping (λ _, 0) (xserver_ready_at delivered_at) w
    = spin_wait_for (xserver_ready_at delivered_at) w.
Proof.
  intros Hover. split.
  2:{ unfold spin_wait_for_sleeping, spin_wait_for. run_m.
      by rewrite spin_loop_sleeping_nominal. }
  unfold spin_wait_for_sleeping. run_m.
  destruct (spin_loop_sleeping_spec oversleep 50 (xserver_ready_at delivered_at)
              (clock w + 5000) (clock w) Hover) as (Hle & Hexit & Hfirst); [lia|].
  set (t := spin_loop_sleeping oversleep 50 (xserver_ready_at delivered_at)
              (clock w + 5000) (clock w)) in *.
  exists (xserver_ready_at delivered_at t), t.
  split; [reflexivity|]. split; [exact Hle|].
  destruct delivered_at as [d|]; cbn [xserver_ready_at] in *.
  - split_and!.
    + intros d' [= <-] Hpast.
      assert (Ht : t = clock w).
      { apply Hfirst. rewrite (proj2 (Z.leb_le d (clock w)) Hpast). cbn [negb].
        apply andb_false_r. }
      rewrite Ht. split; [by apply Z.leb_le|reflexivity].
    + intros d' [= <-] Hin. apply Z.leb_le.
      destruct (d <=? t) eqn:Hr; [by apply Z.leb_le in Hr|].
      cbn [negb] in Hexit. rewrite andb_true_r in Hexit. apply Z.ltb_ge in Hexit. lia.
    + intros Hb. apply Z.leb_le in Hb. eauto.
    + intros Hb. rewrite Hb in Hexit. cbn [negb] in Hexit. rewrite andb_true_r in Hexit.
      apply Z.ltb_ge in Hexit. apply Z.leb_gt in Hb.
      split; [exact Hexit|]. by intros d' [= <-].
  - cbn [negb] in Hexit. rewrite andb_true_r in Hexit. apply Z.ltb_ge in Hexit.
    split_and!; try discriminate.
    intros _. split; [exact Hexit|discriminate].
Qed.

Lemma spin_wait_for_outcome_witness :
  spin_wait_for_sleeping (λ _, 3) (xserver_ready_at (Some 6004)) world_listening
    = (Ok true, set_clock 6047 world_listening)
  ∧ spin_wait_for (xserver_ready_at (Some 6004)) world_listening
    = (Ok false, set_clock 6000 world_listening).
Proof.
  destruct (spin_wait_for_outcome (λ _, 3) (Some 6004) world_listening) as [Hrun _]; [lia|].
  destruct Hrun as (b & t & Hrun & _ & _ & _ & Htrue & Hfalse).
  split; [|vm_compute; reflexivity].
  assert (Ht : t = 6047).
  { assert (Hclk : clock (spin_wait_for_sleeping (λ _, 3) (xserver_ready_at (Some 6004))
                            world_listening).2 = 6047) by (vm_compute; reflexivity).
    rewrite Hrun in Hclk. exact Hclk. }
  subst t. destruct b.
  - exact Hrun.
  - destruct (Hfalse eq_refl) as [_ Hlate]. specialize (Hlate 6004 eq_refl). lia.
Defined.

(** X2: connect_xwayland_wl_client takes its static mutex and then the mutex
    of the client context, and releases them in the reverse order on every
    path, by return or by exception; it touches neither the Connector, the
    children nor the main loop, and the clock never runs backwards. It throws
    the first of its three runtime_errors whose step failed: the handle did
    not come within 10 s, the handle is null, no SIGUSR1 at all. It returns the
    client whenever the handle came in time, is not null and SIGUSR1 was
    delivered no later than 5 s after the handle; and when it returns a client,
    that is the created handle and a SIGUSR1 was delivered. *)
Theorem handshake_outcome (o : SpawnEnv) (fd : Fd) (w : World) :
  ∃ r w', connect_xwayland_wl_client o fd w = (r, w')
    ∧ trace w' = trace w ++ [EvLock XserverReadyMutex; EvLock CreateClientMutex;
                             EvUnlock CreateClientMutex; EvUnlock XserverReadyMutex]
    ∧ conn w' = conn w ∧ children w' = children w
    ∧ main_loop w' = main_loop w ∧ alive w' = alive w
    ∧ clock w ≤ clock w'
    ∧ (client_handle_in_time o = false →
       r = Throw (runtime_error "Creating XWayland wl_client timed out"))
    ∧ (client_handle_in_time o = true → created_client o = None →
       r = Throw (runtime_error "Failed to create XWayland wl_client"))
    ∧ (client_handle_in_time o = true → is_Some (created_client o) →
       sigusr1_delivery o = None →
       r = Throw (runtime_error "XWayland server failed to start"))
    ∧ (∀ c t d, client_created_after o = Some t → 0 ≤ t ≤ 10000 →
       created_client o = Some c →
       sigusr1_delivery o = Some d → 0 ≤ d ≤ t + 5000 →
       r = Ok c)
    ∧ (∀ c, r = Ok c →
       client_handle_in_time o = true ∧ created_client o = Some c
       ∧ is_Some (sigusr1_delivery o))
    ∧ (∀ e, r = Throw e →
       e = runtime_error "Creating XWayland wl_client timed out"
       ∨ e = runtime_error "Failed to create XWayland wl_client"
       ∨ e = runtime_error "XWayland server failed to start").
Proof.
  destruct (handshake_run o fd w)
    as (w' & Hrun & Hclk & Htr & Hconn & Hch & Hml & Halive).
  destruct (handshake_result_cases o)
    as (Hlate & Hnull & Htimeout & Hgood & Hok & Hthrown & _).
  exists (handshake_result o), w'.
  split; [exact Hrun|]. split; [exact Htr|]. split; [exact Hconn|]. split; [exact Hch|].
  split; [exact Hml|]. split; [exact Halive|]. split; [lia|].
  split; [exact Hlate|]. split; [exact Hnull|]. split; [exact Htimeout|].
  split; [|split; [exact Hok|]].
  - intros c t d Ht Hin Hc Hd Hwithin.
    assert (Htime : client_handle_in_time o = true).
    { unfold client_handle_in_time. rewrite Ht. apply Z.leb_le. lia. }
    apply Hgood; [exact Htime|exact Hc|].
    unfold handshake_succeeds. rewrite Htime, Hc, Hd, Ht. cbn [present andb].
    apply Z.leb_le. lia.
  - intros e He. by destruct (Hthrown e He).
Qed.

(** X3: once the client handle exists, the handshake hands SIGUSR1 back as it
    found it, whether it returns the client or throws the readiness timeout. *)
Theorem handshake_restores_handler (o : SpawnEnv) (fd : Fd) (w : World) (c : wl_client) :
  client_handle_in_time o = true →
  created_client o = Some c →
  sigusr1 (connect_xwayland_wl_client o fd w).2 = sigusr1 w.
Proof.
  intros Hin Hc.
  destruct (connect_after_spin_wait o fd w c Hin Hc) as (r & w' & -> & Hsig & _).
  exact Hsig.
Qed.

Lemma handshake_restores_handler_witness :
  sigusr1 (connect_xwayland_wl_client env_good 4 world_listening).2 = HostHandler 0
  ∧ sigusr1 (connect_xwayland_wl_client env_bad_path 4 world_listening).2 = HostHandler 0.
Proof.
  split.
  - exact (handshake_restores_handler env_good 4 world_listening 77 eq_refl eq_refl).
  - exact (handshake_restores_handler env_bad_path 4 world_listening 77 eq_refl eq_refl).
Defined.

(** *** More on fork and exec *)

(** X4: fork_xwayland_process returns a process exactly when both socket
    pairs and fork succeed, and then exactly one child is added; in every
    other case it throws a std::system_error, no child is added and no fork
    is traced. It never touches the Connector, the clock or the signal
    disposition of the parent. *)
Theorem fork_xwayland_process_outcome (o : SpawnEnv) (sp : XWaylandSpawner) (path : string)
    (w : World) :
  ∃ r w' evs, fork_xwayland_process o sp path w = (r, w')
    ∧ trace w' = trace w ++ evs
    ∧ conn w' = conn w ∧ clock w' = clock w ∧ sigusr1 w' = sigusr1 w
    ∧ if present (wayland_pipe_result o) && present (x11_wm_pipe_result o)
         && present (fork_result o)
      then ∃ p c, r = Ok p ∧ fork_result o = Some (pid p) ∧ children w' = children w ++ [c]
                  ∧ child_pid c = pid p ∧ EvFork (pid p) ∈ evs
      else ∃ msg, r = Throw (system_error msg) ∧ children w' = children w
                  ∧ ∀ p, EvFork p ∉ evs.
Proof.
  unfold fork_xwayland_process, make_socket_pair. run_m.
  destruct (wayland_pipe_result o) as [[wc ws]|]; cbn [present andb].
  2:{ exists (Throw (system_error "Creating socket pair failed")), w, [].
      rewrite app_nil_r. split_and!; try reflexivity.
      eexists. split_and!; try reflexivity. intros p Hin. by apply elem_of_nil in Hin. }
  destruct (x11_wm_pipe_result o) as [[xc xs]|]; cbn [present andb].
  2:{ exists (Throw (system_error "Creating socket pair failed")), w, [].
      rewrite app_nil_r. split_and!; try reflexivity.
      eexists. split_and!; try reflexivity. intros p Hin. by apply elem_of_nil in Hin. }
  destruct (fork_result o) as [child|]; cbn [present andb].
  - eexists _, _, [EvLog SevInfo None "Starting XWayland"; EvFork child].
    split; [reflexivity|]. split_and!; try reflexivity.
    + cbn. by rewrite <- app_assoc.
    + eexists _, _. split_and!; try reflexivity.
      apply list_elem_of_further, list_elem_of_here.
  - eexists _, _, [EvLog SevInfo None "Starting XWayland"].
    split; [reflexivity|]. split_and!; try reflexivity.
    eexists. split_and!; try reflexivity.
    intros p Hin. apply elem_of_cons in Hin as [?|Hin]; [discriminate|].
    by apply elem_of_nil in Hin.
Qed.

(** X5: across exec the child keeps open exactly its end of the Wayland
    pair, its end of the wm pair and the listening sockets, in that order; its
    environment differs from the one it inherited only in WAYLAND_SOCKET; and
    the argument vector has six fixed entries, two per listening socket, and
    one more when MIR_XWAYLAND_OPTION is set. The SIGUSR1 disposition the
    child inherited plays no part. *)
Theorem child_image_inherits (o : SpawnEnv) (sp : XWaylandSpawner) (path : string)
    (wayland_client_fd x11_wm_server_fd : Fd) (inherited : SigHandler) :
  let img := fate_image (child_main o sp path wayland_client_fd x11_wm_server_fd inherited) in
  exec_inheritable img = wayland_client_fd :: x11_wm_server_fd :: socket_fds sp
  ∧ (∀ name, name ≠ "WAYLAND_SOCKET" → exec_environ img !! name = environ o !! name)
  ∧ length (exec_argv img)
    = (6 + 2 * length (socket_fds sp)
       + (if environ o !! "MIR_XWAYLAND_OPTION" is Some _ then 1 else 0))%nat
  ∧ img = fate_image (child_main o sp path wayland_client_fd x11_wm_server_fd SIG_DFL).
Proof.
  intros img. subst img. rewrite !child_main_image.
  assert (Himg : ∀ err, fate_image (if execvp_ok o
                   then Execed (xwayland_image o sp path wayland_client_fd x11_wm_server_fd)
                   else Aborted (xwayland_image o sp path wayland_client_fd x11_wm_server_fd) err)
                 = xwayland_image o sp path wayland_client_fd x11_wm_server_fd)
    by (intros err; by destruct (execvp_ok o)).
  rewrite Himg. unfold xwayland_image. cbn [exec_inheritable exec_environ exec_argv].
  split_and!.
  - reflexivity.
  - intros name Hne. by rewrite lookup_insert_ne.
  - cbn [app length]. rewrite length_app. unfold listen_args.
    assert (Hl : ∀ fds : list Fd,
              length (flat_map (λ fd, ["-listen"; to_string fd]) fds) = (2 * length fds)%nat).
    { induction fds as [|fd fds IH]; [reflexivity|]. cbn [flat_map app length]. lia. }
    rewrite Hl. destruct (environ o !! "MIR_XWAYLAND_OPTION"); cbn [option_list option_rect length]; lia.
  - reflexivity.
Qed.

(** *** The destructor of the server *)

(** X6: the destructor always sends SIGTERM first. It sends SIGKILL exactly
    when SIGTERM could be sent and, 100 ms later, the one non-blocking waitpid
    finds the child still running; SIGKILL is then its last action, with
    [running] still set, so the killed child is not reaped. When SIGTERM could
    be sent and no SIGKILL follows, the object records that the child stopped.
    When SIGTERM could not be sent, nothing else is done. *)
Theorem XWaylandServer_dtor_escalates (kill_ret : Z) (wp : WaitpidResult) (s : XWaylandServer) :
  let p := pid (xwayland_process s) in
  let escalate := bool_decide (kill_ret = 0) && running s && bool_decide (wp_ret wp = 0) in
  ∃ s' rest, XWaylandServer_dtor kill_ret wp s
             = (s', SaLog "Deiniting xwayland server" :: SaKill p SIGTERM :: rest)
    ∧ (SaKill p SIGKILL ∈ rest ↔ escalate = true)
    ∧ (escalate = true → last rest = Some (SaKill p SIGKILL) ∧ s' = s)
    ∧ (kill_ret = 0 → escalate = false → running s' = false)
    ∧ (kill_ret = 0 → head rest = Some (SaSleep 100))
    ∧ (kill_ret ≠ 0 → rest = [] ∧ s' = s).
Proof.
  intros p escalate. subst p escalate. unfold XWaylandServer_dtor, is_running.
  destruct (decide (kill_ret = 0)) as [Hk|Hk].
  - rewrite (bool_decide_eq_true_2 _ Hk). cbn [andb].
    destruct (running s) eqn:Hr; cbn [andb].
    + destruct (decide (wp_ret wp = 0)) as [Hw|Hw].
      * rewrite (bool_decide_eq_true_2 _ Hw).
        rewrite bool_decide_eq_false_2 by (intros H; by apply H).
        rewrite Hr. eexists _, _. split; [reflexivity|]. split_and!; try done.
        -- split; [done|]. intros _. cbn.
           repeat (first [apply list_elem_of_here | apply list_elem_of_further]).
      * rewrite (bool_decide_eq_false_2 _ Hw).
        rewrite bool_decide_eq_true_2 by done. cbn [running].
        eexists _, _. split; [reflexivity|]. split_and!; try done.
        split; [|done]. cbn. intros Hin.
        repeat (apply elem_of_cons in Hin as [?|Hin]; [discriminate|]).
        by apply elem_of_nil in Hin.
    + eexists _, _. split; [reflexivity|]. split_and!; try done.
      split; [|done]. cbn. intros Hin.
      repeat (apply elem_of_cons in Hin as [?|Hin]; [discriminate|]).
      by apply elem_of_nil in Hin.
  - rewrite (bool_decide_eq_false_2 _ Hk). cbn [andb].
    eexists _, _. split; [reflexivity|]. split_and!; try done.
    split; [|done]. intros Hin. by apply elem_of_nil in Hin.
Qed.

(** *** What spawn() builds *)

Ltac construction_done :=
  eexists _, _; (split; [reflexivity|]);
  cbn [clock trace main_loop alive conn emit_ev with_conn set_server set_wm
       set_wm_event_thread spawner restart_in_progress xwayland_path wm_event_thread
       server wm add_child] in *;
  split_and!;
  first [ reflexivity | lia | congruence | solve [eauto 10]
        | exists []; split; [by rewrite app_nil_r | reflexivity]
        | eexists; split;
          [ repeat match goal with H : trace _ = _ |- _ => rewrite H end;
            cbn [trace emit_ev add_child]; rewrite <- ?app_assoc; cbn [app]; reflexivity
          | reflexivity ] ].

(** The construction sequence under every oracle. *)
Lemma spawn_construction_run o sp w :
  ∃ r w1, spawn_construction o sp w = (r, w1)
    ∧ clock w ≤ clock w1 ≤ clock w + 15000
    ∧ (∃ evs, trace w1 = trace w ++ evs ∧ forallb construction_event evs = true)
    ∧ main_loop w1 = main_loop w ∧ alive w1 = alive w
    ∧ spawner (conn w1) = spawner (conn w)
    ∧ restart_in_progress (conn w1) = restart_in_progress (conn w)
    ∧ xwayland_path (conn w1) = xwayland_path (conn w)
    ∧ if construction_succeeds o
      then r = Ok tt
           ∧ ∃ p c, fork_result o = Some (pid p) ∧ created_client o = Some c
               ∧ server (conn w1) = Some (mkServer p c true None)
               ∧ wm (conn w1) = Some (mkWM c (x11_wm_client_fd p))
               ∧ wm_event_thread (conn w1)
                 = Some (mkThread "Mir/X11 WM Reader" (x11_wm_client_fd p))
      else (∃ e, r = Throw e) ∧ wm_event_thread (conn w1) = wm_event_thread (conn w).
Proof.
  unfold construction_succeeds.
  unfold spawn_construction, XWaylandServer_ctor, fork_xwayland_process, make_socket_pair,
    XWaylandWM_ctor, ThreadedDispatcher_ctor. run_m.
  destruct (wayland_pipe_result o) as [[wc ws]|]; cbn [present andb negb];
    [|construction_done].
  destruct (x11_wm_pipe_result o) as [[xc xs]|]; cbn [present andb negb];
    [|construction_done].
  destruct (fork_result o) as [child|]; cbn [present andb negb];
    [|construction_done].
  match goal with |- context [connect_xwayland_wl_client o ?fd ?w0] =>
    destruct (handshake_run o fd w0) as (w1 & -> & Hclk & Htr & Hconn & Hch & Hml & Hal) end.
  destruct (handshake_succeeds o) eqn:Hhs; cbn [andb].
  - destruct (handshake_result_ok o Hhs) as (c & Hc & ->).
    destruct (wm_ctor_error o) as [e1|]; cbn [present andb negb]; [construction_done|].
    destruct (thread_ctor_error o) as [e2|]; cbn [present andb negb]; [construction_done|].
    eexists _, _. split; [reflexivity|].
    cbn [clock trace main_loop alive conn emit_ev with_conn set_server set_wm
         set_wm_event_thread spawner restart_in_progress xwayland_path wm_event_thread
         server wm add_child] in *.
    split_and!; try first [reflexivity | lia | congruence].
    + eexists. split.
      * rewrite Htr. cbn [trace emit_ev add_child]. rewrite <- ?app_assoc. cbn [app].
        reflexivity.
      * reflexivity.
    + exists (mkProcess child ws xc), c. split_and!; first [reflexivity | exact Hc].
  - destruct (handshake_result_fail o Hhs) as (msg & ->). construction_done.
Qed.

Lemma spawn_guard_false c :
  spawn_guard c = false →
  server c = None ∧ (∃ sp, spawner c = Some sp) ∧ restart_in_progress c = false.
Proof.
  unfold spawn_guard. destruct (server c), (spawner c), (restart_in_progress c);
    cbn; intros; try discriminate; eauto.
Qed.

(** What an unguarded spawn() leaves behind. *)
Lemma spawn_run (o : SpawnEnv) (w : World) :
  spawn_guard (conn w) = false →
  ∃ w', spawn o w = (Ok tt, w')
    ∧ spawner (conn w') = spawner (conn w)
    ∧ if construction_succeeds o
      then (∃ p c, fork_result o = Some (pid p) ∧ created_client o = Some c
              ∧ server (conn w') = Some (mkServer p c true None)
              ∧ wm (conn w') = Some (mkWM c (x11_wm_client_fd p))
              ∧ wm_event_thread (conn w')
                = Some (mkThread "Mir/X11 WM Reader" (x11_wm_client_fd p)))
           ∧ restart_in_progress (conn w') = false
           ∧ main_loop w' = main_loop w
      else wm_event_thread (conn w') = wm_event_thread (conn w)
           ∧ restart_in_progress (conn w') = true
           ∧ main_loop w' = S (main_loop w).
Proof.
  intros Hg. destruct (spawn_guard_false _ Hg) as (_ & [sp Hsp] & Hflag).
  rewrite (spawn_unguarded o sp) by done.
  destruct (spawn_construction_run o sp (emit_ev (EvLock ConnectorMutex) w))
    as (r & w1 & -> & _ & _ & Hml & _ & Hs & Hf & _ & Hres).
  destruct (construction_succeeds o).
  - destruct Hres as (-> & p & c & Hfork & Hc & Hsrv & Hwm & Hth).
    eexists. split; [reflexivity|]. split_and!.
    + exact Hs.
    + exists p, c. split_and!; done.
    + change (restart_in_progress (conn w1) = false). by rewrite Hf.
    + exact Hml.
  - destruct Hres as ([e ->] & Hth).
    eexists. split; [reflexivity|]. split_and!.
    + exact Hs.
    + exact Hth.
    + reflexivity.
    + change (S (main_loop w1) = S (main_loop w)). by rewrite Hml.
Qed.

(** X7: a spawn() that passes its guards always returns normally and leaves
    the Spawner as it was. When every step of the construction goes through,
    the Connector now holds the server of the forked child, a window manager
    on that server's client and wm descriptor, and a wm thread watching the
    same descriptor, with no restart pending and nothing queued. Otherwise no
    wm thread has been created, a restart is pending and exactly one task was
    queued. *)
Theorem spawn_outcome (o : SpawnEnv) (w : World) :
  spawn_guard (conn w) = false →
  ∃ w', spawn o w = (Ok tt, w')
    ∧ spawner (conn w') = spawner (conn w)
    ∧ if construction_succeeds o
      then (∃ p c, fork_result o = Some (pid p) ∧ created_client o = Some c
              ∧ server (conn w') = Some (mkServer p c true None)
              ∧ wm (conn w') = Some (mkWM c (x11_wm_client_fd p))
              ∧ wm_event_thread (conn w')
                = Some (mkThread "Mir/X11 WM Reader" (x11_wm_client_fd p)))
           ∧ restart_in_progress (conn w') = false
           ∧ main_loop w' = main_loop w
      else wm_event_thread (conn w') = wm_event_thread (conn w)
           ∧ restart_in_progress (conn w') = true
           ∧ main_loop w' = S (main_loop w).
Proof. exact (spawn_run o w). Qed.

Lemma spawn_outcome_witness :
  ∃ w', spawn env_good world_listening = (Ok tt, w')
    ∧ present (wm_event_thread (conn w')) = true
    ∧ restart_in_progress (conn w') = false.
Proof.
  destruct (spawn_outcome env_good world_listening eq_refl) as (w' & Hrun & _ & Hres).
  change (construction_succeeds env_good) with true in Hres.
  destruct Hres as ((p & c & _ & _ & _ & _ & Hth) & Hf & _).
  exists w'. split; [exact Hrun|]. split; [by rewrite Hth|exact Hf].
Defined.

(** *** start(), socket_name() and stop() *)

Lemma start_run sp w :
  start true sp w =
  match spawner (conn w) with
  | Some sp0 =>
      (Ok tt, add_events [EvLock ConnectorMutex;
                          EvLog SevInfo None
                            ("Listening for X11 connections on DISPLAY " +:+ x11_display sp0);
                          EvUnlock ConnectorMutex] w)
  | None =>
      (Ok tt, add_events [EvLock ConnectorMutex; EvCreate CSpawner;
                          EvLog SevInfo None
                            ("Listening for X11 connections on DISPLAY " +:+ x11_display sp);
                          EvUnlock ConnectorMutex]
                (with_conn (set_spawner (Some sp)) w))
  end.
Proof.
  unfold start, create_spawner. run_m.
  change (conn (emit_ev (EvLock ConnectorMutex) w)) with (conn w).
  destruct (spawner (conn w)) as [sp0|] eqn:Hs.
  - change (conn (emit_ev (EvLock ConnectorMutex) w)) with (conn w). rewrite Hs.
    world_norm. reflexivity.
  - world_norm. reflexivity.
Qed.

Lemma socket_name_run w :
  socket_name w =
  (Ok (x11_display <$> spawner (conn w)),
   add_events [EvLock ConnectorMutex; EvUnlock ConnectorMutex] w).
Proof.
  unfold socket_name. run_m. change (conn (emit_ev (EvLock ConnectorMutex) w)) with (conn w).
  destruct (spawner (conn w)); world_norm; reflexivity.
Qed.

(** X9: start() with X11 support creates a Spawner only when there is none:
    an existing Spawner is kept, so a second start() changes nothing but the
    log. Afterwards socket_name() answers the display of the Spawner in place.
    start() never touches the triad or the restart flag, and without X11
    support it does nothing at all. *)
Theorem start_keeps_existing_spawner (sp : XWaylandSpawner) (w : World) :
  let w' := (start true sp w).2 in
  spawner (conn w') = Some (default sp (spawner (conn w)))
  ∧ (socket_name w').1 = Ok (Some (x11_display (default sp (spawner (conn w)))))
  ∧ conn (start true sp w').2 = conn w'
  ∧ server (conn w') = server (conn w) ∧ wm (conn w') = wm (conn w)
  ∧ wm_event_thread (conn w') = wm_event_thread (conn w)
  ∧ restart_in_progress (conn w') = restart_in_progress (conn w)
  ∧ start false sp w = (Ok tt, w).
Proof.
  intros w'. subst w'. rewrite socket_name_run, !start_run.
  destruct (spawner (conn w)) as [sp0|] eqn:Hs; cbn [snd fst default].
  - change (conn (add_events _ w)) with (conn w). rewrite Hs. split_and!; done.
  - split_and!; done.
Qed.

(** X10: after stop() socket_name() answers nothing, and a second stop()
    only takes and releases the mutex: nothing is moved or destroyed twice. *)
Theorem stop_is_idempotent (w : World) :
  (socket_name (stop w).2).1 = Ok None
  ∧ stop (stop w).2
    = (Ok tt, add_events [EvLock ConnectorMutex; EvUnlock ConnectorMutex] (stop w).2).
Proof.
  rewrite socket_name_run, !stop_run. cbn [snd fst]. split; [reflexivity|].
  world_norm. reflexivity.
Qed.

(** *** The restart cycle *)

Lemma mutex_after_app evs1 evs2 held :
  mutex_after held (evs1 ++ evs2) = mutex_after held evs1 ≫= λ h, mutex_after h evs2.
Proof.
  revert held. induction evs1 as [|e evs1 IH]; intros held; [reflexivity|].
  destruct e as [[]|[]| | | | | | | |]; destruct held; cbn [app mutex_after]; try apply IH;
    reflexivity.
Qed.

Lemma tear_down_mutex c :
  mutex_after true (tear_down_events c) = Some false.
Proof. destruct c as [path [sp|] [sv|] [wmgr|] [th|] flag]; reflexivity. Qed.

(** X11: when the main loop runs the task of a restart that is still wanted,
    on a Connector that still exists, every component is moved out under the
    mutex and destroyed after it is released, the flag is cleared and a new
    Spawner is created under the mutex again: the Connector listens on the
    new Spawner, with the mutex free at the end. *)
Theorem restart_task_returns_to_listening (sp : XWaylandSpawner) (w : World) :
  alive w = true →
  restart_in_progress (conn w) = true →
  (0 < main_loop w)%nat →
  ∃ w' evs, main_loop_step sp w = (Ok tt, w')
    ∧ listening_on sp (conn w')
    ∧ main_loop w' = Nat.pred (main_loop w)
    ∧ trace w' = trace w ++ evs
    ∧ evs = [EvLock ConnectorMutex] ++ component_events EvMove (conn w)
            ++ [EvUnlock ConnectorMutex] ++ component_events EvDestroy (conn w)
            ++ (if present (server (conn w)) then [EvLog SevInfo None "XWayland stopped"] else [])
            ++ [EvLock ConnectorMutex; EvCreate CSpawner; EvUnlock ConnectorMutex]
    ∧ mutex_after false evs = Some false.
Proof.
  intros Ha Hf Hml. unfold main_loop_step.
  destruct (main_loop w) as [|n] eqn:Hn; [lia|].
  rewrite restart_task_in_progress by done.
  eexists _, _. split; [reflexivity|]. split_and!.
  - done.
  - cbn. by rewrite Hn.
  - reflexivity.
  - cbn [conn pop_task]. unfold tear_down_events. by rewrite <- !app_assoc.
  - change (conn (pop_task w)) with (conn w). cbn [mutex_after].
    rewrite mutex_after_app, tear_down_mutex. reflexivity.
Qed.

Lemma restart_task_returns_to_listening_witness :
  let w := (spawn env_wm_throws world_listening).2 in
  (main_loop_step spawner_1 w).1 = Ok tt
  ∧ listening_on spawner_1 (conn (main_loop_step spawner_1 w).2).
Proof.
  intros w.
  destruct (restart_task_returns_to_listening spawner_1 w) as (w' & evs & Hrun & Hl & _).
  - vm_compute. reflexivity.
  - vm_compute. reflexivity.
  - vm_compute. lia.
  - rewrite Hrun. done.
Defined.

Lemma listening_unguarded sp c : listening_on sp c → spawn_guard c = false.
Proof. intros (Hs & Hsrv & _ & _ & Hf). unfold spawn_guard. by rewrite Hs, Hsrv, Hf. Qed.

Lemma restart_pending_task sp w :
  alive w = true → restart_in_progress (conn w) = true → (0 < main_loop w)%nat →
  listening_on sp (conn (main_loop_step sp w).2)
  ∧ alive (main_loop_step sp w).2 = true.
Proof.
  intros Ha Hf Hml. unfold main_loop_step. destruct (main_loop w) as [|n]; [lia|].
  rewrite restart_task_in_progress by done. split; [done|exact Ha].
Qed.

(** X12: recovery from a failed start. From a listening Connector, a
    spawn() whose construction fails, followed by the main loop running the
    deferred task, leaves the Connector listening on the new Spawner; a
    spawn() whose construction then succeeds brings up the whole triad. *)
Theorem failed_spawn_recovers (sp sp' : XWaylandSpawner) (o_bad o_good : SpawnEnv) (w : World) :
  listening_on sp (conn w) →
  alive w = true →
  construction_succeeds o_bad = false →
  construction_succeeds o_good = true →
  listening_on sp' (conn (run_ops [OpSpawn o_bad; OpMainLoop sp'] w))
  ∧ let w' := run_ops [OpSpawn o_bad; OpMainLoop sp'; OpSpawn o_good] w in
    spawner (conn w') = Some sp'
    ∧ present (server (conn w')) && present (wm (conn w'))
      && present (wm_event_thread (conn w')) = true
    ∧ restart_in_progress (conn w') = false.
Proof.
  intros Hl Ha Hbad Hgood. cbn [run_ops foldl run_op].
  destruct (spawn_run o_bad w (listening_unguarded _ _ Hl)) as (w1 & Hrun1 & _ & Hres1).
  rewrite Hbad in Hres1. destruct Hres1 as (_ & Hf1 & Hml1).
  assert (Ha1 : alive w1 = true).
  { destruct (spawn_guard_false _ (listening_unguarded _ _ Hl)) as (_ & [sp0 Hsp0] & _).
    rewrite (spawn_unguarded o_bad sp0) in Hrun1 by (done || by apply listening_unguarded with sp).
    destruct (spawn_construction_run o_bad sp0 (emit_ev (EvLock ConnectorMutex) w))
      as (r & w0 & Hc & _ & _ & _ & Hal & _).
    rewrite Hc in Hrun1. destruct r; injection Hrun1 as <-; exact (eq_trans Hal Ha). }
  rewrite Hrun1. cbn [snd].
  destruct (restart_pending_task sp' w1 Ha1 Hf1) as [Hl2 Ha2]; [lia|].
  split; [exact Hl2|].
  destruct (spawn_run o_good _ (listening_unguarded _ _ Hl2)) as (w3 & Hrun3 & Hs3 & Hres3).
  rewrite Hgood in Hres3. destruct Hres3 as ((p & c & _ & _ & Hsrv & Hwm & Hth) & Hf3 & _).
  rewrite Hrun3. cbn [snd]. split_and!.
  - rewrite Hs3. by destruct Hl2.
  - by rewrite Hsrv, Hwm, Hth.
  - exact Hf3.
Qed.

Lemma failed_spawn_recovers_witness :
  listening_on spawner_1
    (conn (run_ops [OpSpawn env_bad_path; OpMainLoop spawner_1] world_listening))
  ∧ restart_in_progress
      (conn (run_ops [OpSpawn env_bad_path; OpMainLoop spawner_1; OpSpawn env_good]
               world_listening)) = false.
Proof.
  destruct (failed_spawn_recovers spawner_1 spawner_1 env_bad_path env_good world_listening)
    as (Hl & _ & _ & Hf).
  - vm_compute. done.
  - reflexivity.
  - vm_compute. reflexivity.
  - vm_compute. reflexivity.
  - split; [exact Hl|exact Hf].
Defined.

(** X13: recovery from a crash of the window manager. With the triad up, an
    exception thrown by handle_events() on the wm thread leaves a restart
    pending with everything still in place; the deferred task then leaves the
    Connector listening on the new Spawner. However many tasks are queued,
    only the first one acts: the Spawner in place afterwards is the one the
    first task created. *)
Theorem wm_crash_recovers (e : exception) (sp' : XWaylandSpawner) (later : list XWaylandSpawner)
    (w : World) :
  is_Some (wm (conn w)) →
  alive w = true →
  let w1 := (bridge_thread_dispatch (Some e) w).2 in
  server (conn w1) = server (conn w) ∧ wm (conn w1) = wm (conn w)
  ∧ wm_event_thread (conn w1) = wm_event_thread (conn w)
  ∧ restart_in_progress (conn w1) = true
  ∧ listening_on sp' (conn (run_op w1 (OpMainLoop sp')))
  ∧ listening_on sp' (conn (run_ops (OpMainLoop <$> sp' :: later) w1)).
Proof.
  intros [m Hm] Ha w1. subst w1. unfold bridge_thread_dispatch, try_catch.
  rewrite wm_dispatcher_callback_run, Hm. cbn [present].
  rewrite wm_exception_handler_run. cbn [snd].
  set (w1 := add_events _ _).
  assert (Ha1 : alive w1 = true) by exact Ha.
  assert (Hf1 : restart_in_progress (conn w1) = true) by reflexivity.
  assert (Hml1 : (0 < main_loop w1)%nat) by (cbn; lia).
  split_and!.
  - reflexivity.
  - exact Hm.
  - reflexivity.
  - reflexivity.
  - cbn [run_op]. by apply restart_pending_task.
  - cbn [fmap list_fmap run_ops foldl run_op].
    destruct (restart_pending_task sp' w1 Ha1 Hf1 Hml1) as [Hl _].
    fold (run_ops (OpMainLoop <$> later) (main_loop_step sp' w1).2).
    rewrite main_loop_drain_not_in_progress; [exact Hl|]. by destruct Hl as (_ & _ & _ & _ & ?).
Qed.

Lemma wm_crash_recovers_witness :
  listening_on spawner_1
    (conn (run_ops [OpDispatch (Some (foreign_error "BadWindow")); OpMainLoop spawner_1]
             world_running)).
Proof.
  destruct (wm_crash_recovers (foreign_error "BadWindow") spawner_1 [] world_running)
    as (_ & _ & _ & _ & Hl & _).
  - vm_compute. eauto.
  - vm_compute. reflexivity.
  - exact Hl.
Defined.

(** *** The mutex across whole runs *)

Lemma mutex_after_construction evs :
  forallb construction_event evs = true → mutex_after true evs = Some true.
Proof.
  induction evs as [|e evs IH]; [reflexivity|]. cbn [forallb]. intros H.
  apply andb_true_iff in H as [He Hevs].
  destruct e as [[]|[]| | | | | | | |]; try discriminate; cbn [mutex_after]; by apply IH.
Qed.

Lemma run_op_mutex op w :
  ∃ evs, trace (run_op w op) = trace w ++ evs ∧ mutex_after false evs = Some false.
Proof.
  destruct op as [x11 sp| | |o|err|sp]; cbn [run_op].
  - destruct x11.
    + rewrite start_run. destruct (spawner (conn w)); eexists; split; reflexivity.
    + exists []. split; [by rewrite app_nil_r|reflexivity].
  - rewrite stop_run. eexists. split; [reflexivity|]. cbn [mutex_after]. apply tear_down_mutex.
  - rewrite socket_name_run. eexists. split; reflexivity.
  - destruct (spawn_guard (conn w)) eqn:Hg.
    + rewrite spawn_guarded by done. eexists. split; reflexivity.
    + destruct (spawn_guard_false _ Hg) as (_ & [sp Hsp] & _).
      rewrite (spawn_unguarded o sp) by done.
      destruct (spawn_construction_run o sp (emit_ev (EvLock ConnectorMutex) w))
        as (r & w1 & -> & _ & (cevs & Htr & Hcevs) & _).
      pose proof (mutex_after_construction _ Hcevs) as Hmid.
      destruct r as [[]|e]; cbn [snd].
      * exists ([EvLock ConnectorMutex] ++ cevs ++ [EvUnlock ConnectorMutex]). split.
        -- cbn [trace emit_ev] in *. rewrite Htr. by rewrite <- !app_assoc.
        -- cbn [app mutex_after]. rewrite mutex_after_app, Hmid. reflexivity.
      * exists ([EvLock ConnectorMutex] ++ cevs
                ++ [EvLog SevError (Some e) "Spawning XWayland failed"; EvDefer;
                    EvUnlock ConnectorMutex]). split.
        -- cbn [trace emit_ev defer with_conn] in *. rewrite Htr. by rewrite <- !app_assoc.
        -- cbn [app mutex_after]. rewrite mutex_after_app, Hmid. reflexivity.
  - unfold bridge_thread_dispatch, try_catch. rewrite wm_dispatcher_callback_run.
    destruct (wm (conn w)) as [m|]; [destruct err as [e|]|]; cbn [present].
    + rewrite wm_exception_handler_run. eexists. split.
      * cbn. rewrite <- !app_assoc. reflexivity.
      * reflexivity.
    + eexists. split; reflexivity.
    + eexists. split; reflexivity.
  - unfold main_loop_step. destruct (main_loop w) as [|n].
    { exists []. split; [by rewrite app_nil_r|reflexivity]. }
    destruct (restart_in_progress (conn w)) eqn:Hf; [destruct (alive w) eqn:Ha|].
    + rewrite restart_task_in_progress by done. eexists. split; [reflexivity|].
      change (conn (pop_task w)) with (conn w). cbn [mutex_after].
      rewrite mutex_after_app, tear_down_mutex. reflexivity.
    + unfold restart_task. run_m. change (alive (pop_task w)) with (alive w). rewrite Ha.
      exists []. split; [by rewrite app_nil_r|reflexivity].
    + rewrite restart_task_not_in_progress by done.
      change (alive (pop_task w)) with (alive w).
      destruct (alive w).
      * eexists. split; reflexivity.
      * exists []. split; [cbn; by rewrite app_nil_r|reflexivity].
Qed.

(** X14: over any sequence of operations on a Connector, each run to
    completion, the mutex is free whenever an operation returns, also when the
    construction sequence or handle_events() threw; it is never taken while
    held; members are moved out, components created, restarts deferred and
    handle_events() called only while it is held; and no destructor ever runs
    while it is held. *)
Theorem operations_respect_the_mutex (ops : list Op) (w : World) :
  ∃ evs, trace (run_ops ops w) = trace w ++ evs ∧ mutex_after false evs = Some false.
Proof.
  revert w. induction ops as [|op ops IH]; intros w.
  - exists []. split; [by rewrite app_nil_r|reflexivity].
  - cbn [run_ops foldl]. fold (run_ops ops (run_op w op)).
    destruct (run_op_mutex op w) as (evs1 & Htr1 & Hm1).
    destruct (IH (run_op w op)) as (evs2 & Htr2 & Hm2).
    exists (evs1 ++ evs2). split.
    + by rewrite Htr2, Htr1, app_assoc.
    + by rewrite mutex_after_app, Hm1.
Qed.

(** *** The destructor of the Connector *)

(** X15: destroying the Connector is a fatal error exactly when one of the
    four components still exists, whatever the restart flag and the queue say;
    after stop() it always goes through. Once the Connector is destroyed, a
    deferred restart task that is still queued does nothing at all: it neither
    takes the mutex nor creates a Spawner. *)
Theorem destructor_requires_stop (sp : XWaylandSpawner) (w : World) :
  (stopped (conn w) = true ↔ ∃ w', XWaylandConnector_dtor w = (Ok tt, w'))
  ∧ (stopped (conn w) = false ↔ ∃ msg, XWaylandConnector_dtor w = (Throw (fatal_error msg), w))
  ∧ ∃ w', XWaylandConnector_dtor (stop w).2 = (Ok tt, w')
      ∧ alive w' = false
      ∧ restart_task sp w' = (Ok tt, w').
Proof.
  unfold XWaylandConnector_dtor, stopped. run_m. split_and!.
  - destruct (spawner (conn w)), (server (conn w)), (wm (conn w)), (wm_event_thread (conn w));
      cbn [present orb andb negb]; split; try done; try (intros [? ?]; discriminate); eauto.
  - destruct (spawner (conn w)), (server (conn w)), (wm (conn w)), (wm_event_thread (conn w));
      cbn [present orb andb negb]; split; try done; try (intros [? ?]; discriminate); eauto.
  - rewrite stop_run. cbn [snd]. eexists. split; [reflexivity|]. split; [reflexivity|].
    unfold restart_task. run_m. reflexivity.
Qed.

(** *** The child of a failed handshake *)

Lemma spawn_construction_handshake_fails o sp w wc ws xc xs p :
  wayland_pipe_result o = Some (wc, ws) →
  x11_wm_pipe_result o = Some (xc, xs) →
  fork_result o = Some p →
  handshake_succeeds o = false →
  ∃ msg w1, spawn_construction o sp w = (Throw (runtime_error msg), w1)
    ∧ conn w1 = conn w
    ∧ alive w1 = alive w
    ∧ children w1
      = children w ++ [mkChild p (child_main o sp (xwayland_path (conn w)) wc xs (sigusr1 w))].
Proof.
  intros Hwp Hxp Hfork Hhs.
  unfold spawn_construction, XWaylandServer_ctor, fork_xwayland_process, make_socket_pair. run_m.
  rewrite Hwp, Hxp, Hfork.
  match goal with |- context [connect_xwayland_wl_client o ?fd ?w0] =>
    destruct (handshake_run o fd w0) as (w1 & -> & _ & _ & Hconn & Hch & _ & Hal) end.
  destruct (handshake_result_fail o Hhs) as (msg & ->).
  exists msg, w1. split_and!; [reflexivity|exact Hconn|exact Hal|exact Hch].
Qed.

(** X16: when the child was forked and the handshake then fails, spawn()
    returns with the child in existence, running Xwayland if execvp succeeded,
    but with no server object in the Connector; so the teardown that the
    deferred restart performs destroys no server, and nothing ever signals
    that child. *)
Theorem failed_handshake_leaves_child (o : SpawnEnv) (sp' : XWaylandSpawner) (w : World)
    (wc ws xc xs : Fd) (p : pid_t) :
  spawn_guard (conn w) = false →
  wayland_pipe_result o = Some (wc, ws) →
  x11_wm_pipe_result o = Some (xc, xs) →
  fork_result o = Some p →
  handshake_succeeds o = false →
  let w1 := (spawn o w).2 in
  (∃ c, children w1 = children w ++ [c] ∧ child_pid c = p
        ∧ (execvp_ok o = true → ∃ img, child_fate c = Execed img))
  ∧ server (conn w1) = None
  ∧ restart_in_progress (conn w1) = true
  ∧ ∀ evs, trace (restart_task sp' w1).2 = trace w1 ++ evs → EvDestroy CServer ∉ evs.
Proof.
  intros Hg Hwp Hxp Hfork Hhs w1. subst w1.
  destruct (spawn_guard_false _ Hg) as (Hsrv & [sp Hsp] & _).
  rewrite (spawn_unguarded o sp) by done.
  destruct (spawn_construction_handshake_fails o sp (emit_ev (EvLock ConnectorMutex) w)
              wc ws xc xs p Hwp Hxp Hfork Hhs) as (msg & w0 & -> & Hconn & Hal & Hch).
  cbn [snd].
  set (w1 := emit_ev (EvUnlock ConnectorMutex) _).
  assert (Hsrv1 : server (conn w1) = None).
  { change (server (conn w0) = None). rewrite Hconn. exact Hsrv. }
  assert (Hf1 : restart_in_progress (conn w1) = true) by reflexivity.
  split_and!.
  - eexists. split; [exact Hch|]. split; [reflexivity|].
    intros Hexec. cbn [child_fate]. rewrite child_main_image, Hexec. eauto.
  - exact Hsrv1.
  - exact Hf1.
  - intros evs Htr. destruct (alive w1) eqn:Ha.
    + rewrite restart_task_in_progress in Htr by done.
      cbn [snd trace add_events set_world_conn with_conn] in Htr.
      apply app_inv_head in Htr. subst evs.
      unfold tear_down_events, component_events. rewrite Hsrv1. cbn [present].
      intros Hin. rewrite !elem_of_cons, !elem_of_app in Hin.
      repeat match goal with
             | H : _ ∨ _ |- _ => destruct H
             | H : _ ∈ (if ?b then _ else _) |- _ => destruct b
             | H : _ ∈ [] |- _ => by apply elem_of_nil in H
             | H : _ ∈ _ :: _ |- _ => apply elem_of_cons in H
             | H : EvDestroy CServer = _ |- _ => discriminate H
             end.
    + unfold restart_task in Htr. revert Htr. run_m. rewrite Ha. cbn [negb snd].
      intros Htr. rewrite <- (app_nil_r (trace w1)) in Htr at 1.
      apply app_inv_head in Htr. subst evs. intros Hin. by apply elem_of_nil in Hin.
Qed.

Lemma failed_handshake_leaves_child_witness :
  (∃ c, children (spawn env_slow_xwayland world_listening).2 = [c] ∧ child_pid c = 4242
        ∧ ∃ img, child_fate c = Execed img)
  ∧ server (conn (spawn env_slow_xwayland world_listening).2) = None.
Proof.
  destruct (failed_handshake_leaves_child env_slow_xwayland spawner_1 world_listening
              3 4 5 6 4242) as ((c & Hch & Hpid & Hfate) & Hsrv & _).
  - vm_compute. reflexivity.
  - reflexivity.
  - reflexivity.
  - reflexivity.
  - vm_compute. reflexivity.
  - split; [|exact Hsrv]. exists c. split; [exact Hch|]. split; [exact Hpid|].
    apply Hfate. reflexivity.
Defined.
